(** * Session memory and context window of the DeepSeek chat dashboard

    A shallow embedding of [deepseek-ai.py]: the [ChatMemory] class, the
    file extractor [process_uploaded_files] and the chat client
    [query_deepseek], followed by the properties of the session memory.

    Naming.  The source keeps two lists in [st.session_state]:
    - [messages]      is the list the page renders ("displayed");
    - [full_history]  is the trimmed list sent to the model ("window"). *)

From Stdlib Require Import ZArith String Ascii Bool List Lia.
From Stdlib Require QArith.QArith_base.
Import ListNotations.

Local Open Scope string_scope.
Local Open Scope list_scope.
Local Open Scope Z_scope.

(** ** Configuration (source lines 9-12) *)

Definition API_URL : string := "https://api.deepseek.com/v1/chat/completions".
Definition MAX_CONTEXT_MESSAGES : Z := 8.
Definition MAX_FILE_CONTENT : Z := 1000.

(** ** Python values used by the program *)

(** The exceptions the modelled code can meet.  The last four are the
    subclasses of [requests.exceptions.RequestException] that the client's
    [except] clause catches. *)
Inductive exn : Type :=
| AttributeError
| KeyError
| IndexError
| TypeError
| LookupError
| ConnectionError
| Timeout
| HTTPError
| JSONDecodeError.

Definition is_RequestException (e : exn) : bool :=
  match e with
  | ConnectionError | Timeout | HTTPError | JSONDecodeError => true
  | _ => false
  end.

(** A call either returns a value or raises. *)
Inductive outcome (A : Type) : Type :=
| Returned (a : A)
| Raised (e : exn).
Arguments Returned {A} a.
Arguments Raised {A} e.

(** [{"role": role, "content": content}]: both entries are [str], as the
    signature of [add_message] declares. *)
Record Message : Type := mkMessage { role : string; content : string }.

(** Python's [l[i:]] for any integer [i]: a negative [i] counts from the
    end, and both ends are clamped to the list. *)
Definition slice_from {A : Type} (i : Z) (l : list A) : list A :=
  let len := Z.of_nat (length l) in
  let start := if i <? 0 then Z.max (len + i) 0 else Z.min i len in
  skipn (Z.to_nat start) l.

(** Python's [s[:j]] on a string, for [j >= 0]. *)
Definition str_slice_to (j : Z) (s : string) : string :=
  substring 0 (Z.to_nat j) s.

(** Python's [sep.join(parts)]. *)
Definition join (sep : string) (parts : list string) : string :=
  String.concat sep parts.

Definition newline : string := String (ascii_of_nat 10) EmptyString.

(** ** The store: one [ChatMemory] instance over [st.session_state] *)

(** [st.session_state] is a dictionary; a key that was never assigned is
    [None] here.  Only the keys the modelled functions touch are kept. *)
Record session_state : Type := mkSession {
  DEESEEK_API_KEY : option string;
  messages : option (list Message);
  full_history : option (list Message)
}.

(** The instance attributes of [ChatMemory]. *)
Record ChatMemory : Type := mkChatMemory { max_messages : Z }.

(** What a method of [ChatMemory] can read and write: [self] and the
    session dictionary (a module-level global in the source). *)
Record Store : Type := mkStore {
  self : ChatMemory;
  session : session_state
}.

(** A small state-and-exception monad: a computation runs on a store and
    leaves the store as it was at the return or at the raise. *)
Definition M (A : Type) : Type := Store -> outcome A * Store.

Definition ret {A : Type} (a : A) : M A := fun s => (Returned a, s).

Definition raise {A : Type} (e : exn) : M A := fun s => (Raised e, s).

Definition bind {A B : Type} (m : M A) (k : A -> M B) : M B :=
  fun s =>
    match m s with
    | (Returned a, s') => k a s'
    | (Raised e, s') => (Raised e, s')
    end.

Notation "x <- m ;; k" := (bind m (fun x => k))
  (at level 61, m at next level, right associativity).
Notation "m ;; k" := (bind m (fun _ => k))
  (at level 61, right associativity).

(** [try: body  except requests.exceptions.RequestException: handler] *)
Definition try_except_RequestException {A : Type}
    (body : M A) (handler : exn -> M A) : M A :=
  fun s =>
    match body s with
    | (Raised e, s') =>
        if is_RequestException e then handler e s' else (Raised e, s')
    | r => r
    end.

(** Lifting a result that the environment produced. *)
Definition lift {A : Type} (r : outcome A) : M A := fun s => (r, s).

(** [self.max_messages] *)
Definition self_max_messages : M Z :=
  fun s => (Returned (max_messages (self s)), s).

(** [st.session_state.messages]: attribute access, [AttributeError] when the
    key is absent. *)
Definition session_messages : M (list Message) :=
  fun s =>
    match messages (session s) with
    | Some l => (Returned l, s)
    | None => (Raised AttributeError, s)
    end.

(** [st.session_state.full_history] *)
Definition session_full_history : M (list Message) :=
  fun s =>
    match full_history (session s) with
    | Some l => (Returned l, s)
    | None => (Raised AttributeError, s)
    end.

(** [st.session_state['DEESEEK_API_KEY']]: item access, [KeyError] when the
    key is absent. *)
Definition session_api_key : M string :=
  fun s =>
    match DEESEEK_API_KEY (session s) with
    | Some k => (Returned k, s)
    | None => (Raised KeyError, s)
    end.

Definition set_messages (l : list Message) : M unit :=
  fun s =>
    (Returned tt,
     mkStore (self s)
       (mkSession (DEESEEK_API_KEY (session s)) (Some l)
          (full_history (session s)))).

Definition set_full_history (l : list Message) : M unit :=
  fun s =>
    (Returned tt,
     mkStore (self s)
       (mkSession (DEESEEK_API_KEY (session s)) (messages (session s))
          (Some l))).

(** ** class ChatMemory (source lines 35-57) *)

(** [initialize_session]: the guard tests the key ["messages"] only; both
    lists are created together. *)
Definition initialize_session : M unit :=
  fun s =>
    match messages (session s) with
    | None => (set_messages [] ;; set_full_history []) s
    | Some _ => (Returned tt, s)
    end.

(** [ChatMemory(max_messages)] built over an existing session dictionary. *)
Definition ChatMemory_init (n : Z) (ss : session_state) : Store :=
  snd (initialize_session (mkStore (mkChatMemory n) ss)).

(** The trimming loop of [add_message] (source lines 48-50),

      while len(full_history) > self.max_messages:
          removed = full_history.pop(0)

    run on the list held in the session.  Every iteration pops the head, so
    the loop is a recursion on the list.  The result carries the popped
    messages in the order they were popped (the values [removed] takes),
    how the loop ended, and the list left in the session.  The argument of
    [logger.debug] slices the [str] content of [removed], which cannot raise,
    and the record is below the configured level.  [pop(0)] on an empty list
    raises [IndexError]; that is reached only with a negative bound. *)
Fixpoint trim_loop (n : Z) (fh : list Message)
  : list Message * outcome unit * list Message :=
  match fh with
  | [] =>
      if n <? 0 then ([], Raised IndexError, []) else ([], Returned tt, [])
  | removed :: rest =>
      if n <? Z.of_nat (length (removed :: rest)) then
        let '(popped, r, fh') := trim_loop n rest in
        (removed :: popped, r, fh')
      else ([], Returned tt, removed :: rest)
  end.

Definition trim_full_history : M unit :=
  fh <- session_full_history ;;
  n <- self_max_messages ;;
  let '(_, r, fh') := trim_loop n fh in
  set_full_history fh' ;;
  lift r.

Definition add_message (role content : string) : M unit :=
  ms <- session_messages ;;
  set_messages (ms ++ [mkMessage role content]) ;;
  fh <- session_full_history ;;
  set_full_history (fh ++ [mkMessage role content]) ;;
  trim_full_history.

Definition system_message (system_prompt : string) : Message :=
  mkMessage "system" system_prompt.

Definition get_context (system_prompt : string) : M (list Message) :=
  fh <- session_full_history ;;
  n <- self_max_messages ;;
  ret ([system_message system_prompt] ++ slice_from (- n) fh).

Definition clear_memory : M unit :=
  set_messages [] ;;
  set_full_history [].

(** ** process_uploaded_files (source lines 60-81) *)

(** An uploaded file as the extractor sees it: [file.name], [file.type] and
    what [file.read()] gives. *)
Record UploadedFile : Type := mkFile {
  name : string;
  type : string;
  read : outcome (list Byte.byte)
}.

Section FileExtractor.

(** The libraries the extractor calls.
    - [pdf_pages file]: [pdfplumber.open(file)] followed by
      [page.extract_text()] on every page, [None] for a page without
      text; raises when the file cannot be parsed.
    - [chardet_detect raw]: the entry ["encoding"] of [chardet.detect(raw)],
      [None] when the key is absent and [Some None] when it holds [None].
    - [decode raw enc]: [raw.decode(enc, errors="replace")]. *)
Variable pdf_pages : UploadedFile -> outcome (list (option string)).
Variable chardet_detect : list Byte.byte -> option (option string).
Variable decode : list Byte.byte -> string -> outcome string.

(** [for page in pdf.pages: text += page.extract_text() or ""] *)
Definition pdf_text (pages : list (option string)) : string :=
  fold_left
    (fun text page =>
       (text ++ match page with Some t => t | None => "" end)%string)
    pages "".

(** The body of the [try] for one file: the string appended to
    [processed_content], or the exception the [except] clause swallows. *)
Definition process_file (file : UploadedFile) : outcome string :=
  if String.eqb (type file) "application/pdf" then
    match pdf_pages file with
    | Raised e => Raised e
    | Returned pages =>
        let text := pdf_text pages in
        Returned ("PDF_CONTENT:" ++ name file ++ ": "
                  ++ str_slice_to MAX_FILE_CONTENT text ++ "...")%string
    end
  else
    match read file with
    | Raised e => Raised e
    | Returned raw_data =>
        let encoding :=
          match chardet_detect raw_data with
          | Some v => v
          | None => Some "utf-8-sig"
          end in
        match encoding with
        | None => Raised TypeError
        | Some enc =>
            match decode raw_data enc with
            | Raised e => Raised e
            | Returned content =>
                Returned ("FILE_CONTENT:" ++ name file ++ ": "
                          ++ str_slice_to MAX_FILE_CONTENT content
                          ++ "...")%string
            end
        end
    end.

(** The [for] loop: a file whose processing raises is reported and
    skipped, the others are appended in order. *)
Fixpoint process_loop (files : list UploadedFile)
    (processed_content : list string) : list string :=
  match files with
  | [] => processed_content
  | file :: rest =>
      match process_file file with
      | Returned s => process_loop rest (processed_content ++ [s])
      | Raised _ => process_loop rest processed_content
      end
  end.

Definition process_uploaded_files (files : list UploadedFile) : string :=
  join newline (process_loop files []).

(** The strings of the files that were processed without an exception,
    in the order of the files. *)
Definition processed (files : list UploadedFile) : list string :=
  flat_map
    (fun file =>
       match process_file file with
       | Returned s => [s]
       | Raised _ => []
       end)
    files.

End FileExtractor.

(** ** query_deepseek (source lines 84-119) *)

(** The response body at the shape the client reads it: every key the
    extraction chain looks up is either present or absent. *)
Record ReplyMessage : Type := mkReplyMessage { reply_content : option string }.
Record Choice : Type := mkChoice { choice_message : option ReplyMessage }.
Record ResponseData : Type := mkResponseData { choices : option (list Choice) }.

(** [response.status_code] and [response.json()]. *)
Record Response : Type := mkResponse {
  status_code : Z;
  json : outcome ResponseData
}.

(** The request envelope; the temperature is forwarded, never computed on. *)
Record Payload : Type := mkPayload {
  model : string;
  payload_messages : list Message;
  temperature : QArith_base.Q
}.

Record Request : Type := mkRequest {
  url : string;
  header_Authorization : string;
  header_Content_Type : string;
  request_json : Payload
}.

(** [response.raise_for_status()]: [HTTPError] for a 4xx or 5xx status. *)
Definition raise_for_status (response : Response) : M unit :=
  if (400 <=? status_code response) && (status_code response <? 600)
  then raise HTTPError
  else ret tt.

(** [response_data.get("choices", [{}])[0].get("message", {}).get("content", "")] *)
Definition assistant_content (response_data : ResponseData) : outcome string :=
  let choice_list :=
    match choices response_data with
    | Some l => l
    | None => [mkChoice None]
    end in
  match choice_list with
  | [] => Raised IndexError
  | first :: _ =>
      let message :=
        match choice_message first with
        | Some m => m
        | None => mkReplyMessage None
        end in
      Returned match reply_content message with
               | Some c => c
               | None => ""
               end
  end.

Section ChatClient.

(** [requests.post(API_URL, headers=headers, json=payload)]: the network,
    which returns a response or raises. *)
Variable requests_post : Request -> outcome Response.

Definition query_deepseek (prompt system_prompt model : string)
    (temperature : QArith_base.Q) : M (option ResponseData) :=
  key <- session_api_key ;;
  try_except_RequestException
    (context <- get_context system_prompt ;;
     let payload :=
       mkPayload model (context ++ [mkMessage "user" prompt]) temperature in
     response <-
       lift (requests_post
               (mkRequest API_URL ("Bearer " ++ key)%string
                  "application/json" payload)) ;;
     raise_for_status response ;;
     (if status_code response =? 200 then
        response_data <- lift (json response) ;;
        assistant_response <- lift (assistant_content response_data) ;;
        add_message "user" prompt ;;
        add_message "assistant" assistant_response ;;
        ret (Some response_data)
      else
        ret None))
    (fun _ => ret None).

End ChatClient.

(** The request one turn sends from a store holding the key [key] and the
    window [w]. *)
Definition sent_request (slf : ChatMemory) (key : string) (w : list Message)
    (prompt system_prompt model : string) (temperature : QArith_base.Q)
  : Request :=
  mkRequest API_URL ("Bearer " ++ key)%string "application/json"
    (mkPayload model
       ((system_message system_prompt :: slice_from (- max_messages slf) w)
        ++ [mkMessage "user" prompt])
       temperature).

(** The request fails: the transport raised, or the status is not 200. *)
Definition request_fails (o : outcome Response) : Prop :=
  match o with
  | Raised e => is_RequestException e = true
  | Returned response => status_code response <> 200
  end.

(** ** Sequences of calls *)

(** The two lists under the names the specification uses. *)
Definition displayed (s : Store) : option (list Message) :=
  messages (session s).

Definition window (s : Store) : option (list Message) :=
  full_history (session s).

(** The store after a call, whether it returned or raised. *)
Definition after {A : Type} (m : M A) (s : Store) : Store := snd (m s).

(** One [add_message] call is its two arguments. *)
Definition call : Type := (string * string)%type.

Definition message_of (c : call) : Message := mkMessage (fst c) (snd c).

(** The stores reached after each call of a sequence, in order. *)
Fixpoint stores_after_calls (calls : list call) (s : Store) : list Store :=
  match calls with
  | [] => []
  | c :: rest =>
      let s' := after (add_message (fst c) (snd c)) s in
      s' :: stores_after_calls rest s'
  end.

(** The store after the whole sequence. *)
Definition after_calls (calls : list call) (s : Store) : Store :=
  fold_left (fun s c => after (add_message (fst c) (snd c)) s) calls s.

(** The operations of the memory. *)
Inductive operation : Type :=
| Initialize
| AddMessage (role content : string)
| Clear.

Definition perform (o : operation) : M unit :=
  match o with
  | Initialize => initialize_session
  | AddMessage r c => add_message r c
  | Clear => clear_memory
  end.

Definition after_operations (ops : list operation) (s : Store) : Store :=
  fold_left (fun s o => after (perform o) s) ops s.

(** A session in which nothing was stored yet, and the memory a first
    [ChatMemory(n)] builds over it. *)
Definition fresh_session (key : option string) : session_state :=
  mkSession key None None.

Definition empty_memory (n : Z) (key : option string) : Store :=
  ChatMemory_init n (fresh_session key).

(** The suffix of [l] of length [k], the whole of [l] when it is shorter. *)
Definition last_n {A : Type} (k : nat) (l : list A) : list A :=
  skipn (length l - k)%nat l.

(** ** main_interface (source lines 144-217): the parts that compute *)

(** [sub in s] on strings. *)
Fixpoint contains (sub s : string) : bool :=
  if String.prefix sub s then true
  else
    match s with
    | EmptyString => false
    | String _ s' => contains sub s'
    end.

(** [s.split(sep, maxsplit)] for a separator of one character: the string
    is cut at the first [maxsplit] separators, the rest is the last part. *)
Fixpoint split (sep : ascii) (maxsplit : nat) (s : string) : list string :=
  match s with
  | EmptyString => [EmptyString]
  | String c s' =>
      match maxsplit with
      | O => [s]
      | S m =>
          if Ascii.eqb c sep then EmptyString :: split sep m s'
          else
            match split sep maxsplit s' with
            | part :: parts => String c part :: parts
            | [] => [String c EmptyString]
            end
      end
  end.

Definition colon : ascii := ascii_of_nat 58.

(** What the page shows for one stored message.  The label is the one the
    source picks ([UserLabel] for the role ["user"], [AssistantLabel] for
    any other role); [st_write who text] stands for
    [st.write(f"{role}: {text}")] and [st_expander_text text] for the
    expander holding [st.text(text)]. *)
Inductive speaker : Type := UserLabel | AssistantLabel.

Inductive widget : Type :=
| st_write (who : speaker) (text : string)
| st_expander_text (text : string).

(** The body of the history loop (source lines 171-180). *)
Definition render_message (msg : Message) : list widget :=
  let who :=
    if String.eqb (role msg) "user" then UserLabel else AssistantLabel in
  let text := content msg in
  if contains "FILE_CONTENT" text || contains "PDF_CONTENT" text then
    let parts := split colon 2 text in
    [st_write who (hd EmptyString parts);
     st_expander_text (last parts EmptyString)]
  else [st_write who text].

(** [for msg in st.session_state.get("messages", []): ...] *)
Definition render_history (ss : session_state) : list widget :=
  flat_map render_message
    match messages ss with
    | Some l => l
    | None => []
    end.

(** [f"{user_input}\n{file_context}" if file_context else user_input]
    (source line 186). *)
Definition full_prompt (user_input file_context : string) : string :=
  match file_context with
  | EmptyString => user_input
  | _ => (user_input ++ newline ++ file_context)%string
  end.

Section PromptFiles.

Variable pdf_pages : UploadedFile -> outcome (list (option string)).
Variable chardet_detect : list Byte.byte -> option (option string).
Variable decode : list Byte.byte -> string -> outcome string.

(** [process_uploaded_files(uploaded_files) if uploaded_files else ""]
    (source line 185). *)
Definition file_context (uploaded_files : list UploadedFile) : string :=
  match uploaded_files with
  | [] => ""
  | _ => process_uploaded_files pdf_pages chardet_detect decode uploaded_files
  end.

End PromptFiles.

(** * Properties *)

(** ** The trimming loop *)

(** The popped messages followed by the kept ones are the list the loop
    started from: the loop removes a prefix and reorders nothing. *)
Lemma trim_loop_partition (n : Z) (fh : list Message) :
  fst (fst (trim_loop n fh)) ++ snd (trim_loop n fh) = fh.
Proof.
  induction fh as [|m rest IH].
  - simpl. destruct (n <? 0); reflexivity.
  - cbn [trim_loop].
    destruct (n <? Z.of_nat (length (m :: rest))).
    + destruct (trim_loop n rest) as [[popped r] kept].
      simpl in *. now rewrite IH.
    + reflexivity.
Qed.

(** The loop ends by leaving the [while], or by [pop(0)] on an empty list. *)
Lemma trim_loop_outcome (n : Z) (fh : list Message) :
  snd (fst (trim_loop n fh)) = Returned tt
  \/ snd (fst (trim_loop n fh)) = Raised IndexError.
Proof.
  induction fh as [|m rest IH].
  - simpl. destruct (n <? 0); auto.
  - cbn [trim_loop].
    destruct (n <? Z.of_nat (length (m :: rest))).
    + destruct (trim_loop n rest) as [[popped r] kept]. exact IH.
    + auto.
Qed.

(** The loop pops exactly the entries in excess of the bound, oldest first,
    and keeps the rest. *)
Lemma trim_loop_lists (n : Z) (fh : list Message) :
  fst (fst (trim_loop n fh)) = firstn (length fh - Z.to_nat n) fh
  /\ snd (trim_loop n fh) = skipn (length fh - Z.to_nat n) fh.
Proof.
  induction fh as [|m rest [IHp IHk]].
  - simpl. destruct (n <? 0); auto.
  - cbn [trim_loop].
    destruct (n <? Z.of_nat (length (m :: rest))) eqn:E.
    + apply Z.ltb_lt in E. cbn [length] in *.
      replace (S (length rest) - Z.to_nat n)%nat
        with (S (length rest - Z.to_nat n)) by lia.
      destruct (trim_loop n rest) as [[popped r] kept].
      cbn [fst snd firstn skipn] in *. now rewrite IHp, IHk.
    + apply Z.ltb_ge in E. cbn [length] in *.
      replace (S (length rest) - Z.to_nat n)%nat with 0%nat by lia.
      auto.
Qed.

(** With a bound that is not negative the loop returns. *)
Lemma trim_loop_returns (n : Z) (fh : list Message) :
  0 <= n -> snd (fst (trim_loop n fh)) = Returned tt.
Proof.
  intros Hn. induction fh as [|m rest IH].
  - simpl. destruct (n <? 0) eqn:E; [apply Z.ltb_lt in E; lia | reflexivity].
  - cbn [trim_loop].
    destruct (n <? Z.of_nat (length (m :: rest))).
    + destruct (trim_loop n rest) as [[popped r] kept]. exact IH.
    + reflexivity.
Qed.

Lemma length_last_n {A : Type} (k : nat) (l : list A) :
  length (last_n k l) = Nat.min k (length l).
Proof. unfold last_n. rewrite length_skipn. lia. Qed.

Lemma last_n_all {A : Type} (k : nat) (l : list A) :
  (length l <= k)%nat -> last_n k l = l.
Proof.
  intros H. unfold last_n.
  replace (length l - k)%nat with 0%nat by lia. reflexivity.
Qed.

(** Appending to a suffix and trimming again gives the suffix of the
    appended list. *)
Lemma last_n_app_last {A : Type} (k : nat) (l : list A) (x : A) :
  last_n k (last_n k l ++ [x]) = last_n k (l ++ [x]).
Proof.
  unfold last_n.
  assert (H : skipn (length l - k) l ++ [x] = skipn (length l - k) (l ++ [x])).
  { rewrite skipn_app.
    replace (length l - k - length l)%nat with 0%nat by lia.
    reflexivity. }
  rewrite H, skipn_skipn. f_equal.
  rewrite length_skipn, length_app. cbn [length]. lia.
Qed.

(** The slice [l[-n:]] of [get_context], for a positive bound and for
    zero. *)
Lemma slice_from_neg {A : Type} (n : Z) (l : list A) :
  0 < n -> slice_from (- n) l = last_n (Z.to_nat n) l.
Proof.
  intros Hn. unfold slice_from, last_n.
  destruct (- n <? 0) eqn:E; [|apply Z.ltb_ge in E; lia].
  f_equal. lia.
Qed.

Lemma slice_from_zero {A : Type} (l : list A) : slice_from (- 0) l = l.
Proof.
  unfold slice_from. cbn [Z.opp Z.ltb Z.compare].
  replace (Z.to_nat (Z.min 0 (Z.of_nat (length l)))) with 0%nat by lia.
  reflexivity.
Qed.

(** ** Running the methods on an initialised store *)

Lemma add_message_store (slf : ChatMemory) (key : option string)
    (d w : list Message) (r c : string) :
  add_message r c (mkStore slf (mkSession key (Some d) (Some w))) =
  (snd (fst (trim_loop (max_messages slf) (w ++ [mkMessage r c]))),
   mkStore slf
     (mkSession key (Some (d ++ [mkMessage r c]))
        (Some (snd (trim_loop (max_messages slf) (w ++ [mkMessage r c])))))).
Proof.
  unfold add_message, trim_full_history, bind, session_messages,
    session_full_history, self_max_messages, set_messages, set_full_history,
    lift.
  cbn.
  destruct (trim_loop (max_messages slf) (w ++ [mkMessage r c]))
    as [[popped o] kept].
  reflexivity.
Qed.

Lemma get_context_store (slf : ChatMemory) (key : option string)
    (d : option (list Message)) (w : list Message) (p : string) :
  get_context p (mkStore slf (mkSession key d (Some w))) =
  (Returned (system_message p :: slice_from (- max_messages slf) w),
   mkStore slf (mkSession key d (Some w))).
Proof. reflexivity. Qed.

Lemma add_message_nonneg (slf : ChatMemory) (key : option string)
    (d w : list Message) (r c : string) :
  0 <= max_messages slf ->
  add_message r c (mkStore slf (mkSession key (Some d) (Some w))) =
  (Returned tt,
   mkStore slf
     (mkSession key (Some (d ++ [mkMessage r c]))
        (Some (last_n (Z.to_nat (max_messages slf)) (w ++ [mkMessage r c]))))).
Proof.
  intros Hn. rewrite add_message_store, (trim_loop_returns _ _ Hn).
  now rewrite (proj2 (trim_loop_lists _ _)).
Qed.

(** Whatever the second list holds, and whether the call returns or raises,
    the call leaves its message at the end of [messages] and touches neither
    [self] nor the key. *)
Lemma add_message_displayed (slf : ChatMemory) (key : option string)
    (d : list Message) (fh : option (list Message)) (r c : string) :
  exists fh',
    after (add_message r c) (mkStore slf (mkSession key (Some d) fh)) =
    mkStore slf (mkSession key (Some (d ++ [mkMessage r c])) fh').
Proof.
  destruct fh as [w|].
  - unfold after. rewrite add_message_store. cbn [snd]. eauto.
  - exists None. reflexivity.
Qed.

Lemma after_calls_displayed (slf : ChatMemory) (key : option string)
    (calls : list call) :
  forall (d : list Message) (fh : option (list Message)),
    displayed (after_calls calls (mkStore slf (mkSession key (Some d) fh))) =
    Some (d ++ map message_of calls).
Proof.
  unfold after_calls.
  induction calls as [|c rest IH]; intros d fh.
  - cbn. now rewrite app_nil_r.
  - cbn [fold_left map].
    destruct (add_message_displayed slf key d fh (fst c) (snd c)) as [fh' E].
    rewrite E, IH, <- app_assoc. reflexivity.
Qed.

Lemma empty_memory_store (n : Z) (key : option string) :
  empty_memory n key =
  mkStore (mkChatMemory n) (mkSession key (Some []) (Some [])).
Proof. reflexivity. Qed.

Lemma skipn_last {A : Type} (j : nat) :
  forall (l : list A) (dflt : A),
    skipn j l <> [] -> last (skipn j l) dflt = last l dflt.
Proof.
  induction j as [|j IH]; intros l dflt H.
  - reflexivity.
  - destruct l as [|a l]; [reflexivity|].
    cbn [skipn] in *. rewrite (IH l dflt H).
    destruct l as [|b l].
    + rewrite skipn_nil in H. contradiction.
    + reflexivity.
Qed.

(** For a positive bound [get_context] is the system message followed by
    the last [max_messages] entries of the window, whatever its length. *)
Lemma get_context_positive_bound (slf : ChatMemory) (key : option string)
    (d : option (list Message)) (w : list Message) (p : string) :
  0 < max_messages slf ->
  fst (get_context p (mkStore slf (mkSession key d (Some w)))) =
  Returned (system_message p :: last_n (Z.to_nat (max_messages slf)) w).
Proof.
  intros Hn. rewrite get_context_store. cbn [fst].
  now rewrite (slice_from_neg _ _ Hn).
Qed.

(** For the bound zero the slice [l[-0:]] is [l[0:]]: the whole window
    follows the system message. *)
Lemma get_context_zero_bound (key : option string)
    (d : option (list Message)) (w : list Message) (p : string) :
  fst (get_context p (mkStore (mkChatMemory 0) (mkSession key d (Some w)))) =
  Returned (system_message p :: w).
Proof.
  rewrite get_context_store. cbn [fst max_messages].
  now rewrite slice_from_zero.
Qed.

(** The first element of the context is the system message, for every
    bound and every window. *)
Lemma get_context_head (slf : ChatMemory) (key : option string)
    (d : option (list Message)) (w : list Message) (p : string) :
  exists tail,
    fst (get_context p (mkStore slf (mkSession key d (Some w)))) =
    Returned (mkMessage "system" p :: tail).
Proof. rewrite get_context_store. cbn [fst]. eauto. Qed.

(** ** The claims on the session memory *)

(** C2.  For every sequence of [add_message] calls on a memory whose bound
    [max_messages] is [n] (not negative), started from any contents of the
    two lists, the window [full_history] holds at most [n] messages after
    each call of the sequence. *)
Theorem window_bounded_after_each_call (n : Z) (key : option string)
    (d w : list Message) (calls : list call) :
  0 <= n ->
  Forall
    (fun s' =>
       exists w', window s' = Some w' /\ Z.of_nat (length w') <= n)
    (stores_after_calls calls
       (mkStore (mkChatMemory n) (mkSession key (Some d) (Some w)))).
Proof.
  intros Hn. revert d w.
  induction calls as [|c rest IH]; intros d w; cbn [stores_after_calls].
  - constructor.
  - unfold after. rewrite add_message_nonneg by exact Hn. cbn [snd].
    constructor.
    + eexists. split; [reflexivity|].
      rewrite length_last_n. cbn [max_messages]. lia.
    + apply IH.
Qed.

Lemma window_bounded_after_each_call_witness :
  0 <= 2 /\
  Forall
    (fun s' =>
       exists w', window s' = Some w' /\ Z.of_nat (length w') <= 2)
    (stores_after_calls [("user", "a"); ("assistant", "b"); ("user", "c")]
       (mkStore (mkChatMemory 2) (mkSession None (Some []) (Some [])))).
Proof.
  split; [lia|].
  apply (window_bounded_after_each_call 2 None [] []
           [("user", "a"); ("assistant", "b"); ("user", "c")]).
  lia.
Defined.

(** C4.  Eviction is first in, first out.  When [add_message] runs on a
    window [w], the messages its loop pops are, in the order they are
    popped, the [j] oldest entries of [w ++ [m]], where [j] is the excess of
    the length over the bound, and the window is left holding the rest in
    order; on a full window [oldest :: rest] exactly [oldest] is popped.
    With [max_messages = 2] the calls (user, a), (assistant, b), (user, c)
    leave the window [(assistant, b); (user, c)]. *)
Theorem eviction_is_fifo (n : Z) (key : option string)
    (d w : list Message) (r c : string) :
  let s := mkStore (mkChatMemory n) (mkSession key (Some d) (Some w)) in
  let m := mkMessage r c in
  let j := (length w + 1 - Z.to_nat n)%nat in
  fst (fst (trim_loop n (w ++ [m]))) = firstn j (w ++ [m])
  /\ window (after (add_message r c) s) = Some (skipn j (w ++ [m]))
  /\ (forall oldest rest,
        w = oldest :: rest -> Z.of_nat (length w) = n ->
        fst (fst (trim_loop n (w ++ [m]))) = [oldest]
        /\ window (after (add_message r c) s) = Some (rest ++ [m]))
  /\ window
       (after_calls [("user", "a"); ("assistant", "b"); ("user", "c")]
          (empty_memory 2 key))
     = Some [mkMessage "assistant" "b"; mkMessage "user" "c"].
Proof.
  intros s m j.
  assert (Hj : (length (w ++ [m]) - Z.to_nat n)%nat = j).
  { rewrite length_app. reflexivity. }
  destruct (trim_loop_lists n (w ++ [m])) as [Hpop Hkept].
  rewrite Hj in Hpop, Hkept.
  assert (Hwin : window (after (add_message r c) s) = Some (skipn j (w ++ [m]))).
  { unfold after, s. rewrite add_message_store. cbn. fold m.
    now rewrite Hkept. }
  split; [exact Hpop|]. split; [exact Hwin|]. split.
  - intros oldest rest Hw Hlen.
    rewrite Hpop, Hwin.
    assert (Ej : j = 1%nat) by (unfold j; lia).
    rewrite Ej, Hw. split; reflexivity.
  - reflexivity.
Qed.

Lemma eviction_is_fifo_witness :
  [mkMessage "user" "a"; mkMessage "assistant" "b"]
  = mkMessage "user" "a" :: [mkMessage "assistant" "b"]
  /\ Z.of_nat (length [mkMessage "user" "a"; mkMessage "assistant" "b"]) = 2
  /\ fst (fst (trim_loop 2
                 ([mkMessage "user" "a"; mkMessage "assistant" "b"]
                  ++ [mkMessage "user" "c"])))
     = [mkMessage "user" "a"]
  /\ window
       (after (add_message "user" "c")
          (mkStore (mkChatMemory 2)
             (mkSession None
                (Some [mkMessage "user" "a"; mkMessage "assistant" "b"])
                (Some [mkMessage "user" "a"; mkMessage "assistant" "b"]))))
     = Some ([mkMessage "assistant" "b"] ++ [mkMessage "user" "c"]).
Proof.
  split; [reflexivity|]. split; [reflexivity|].
  exact (proj1 (proj2 (proj2
    (eviction_is_fifo 2 None
       [mkMessage "user" "a"; mkMessage "assistant" "b"]
       [mkMessage "user" "a"; mkMessage "assistant" "b"] "user" "c")))
    (mkMessage "user" "a") [mkMessage "assistant" "b"] eq_refl eq_refl).
Defined.

(** C5.  The list [messages] is never trimmed.  After any sequence of
    [add_message] calls on an empty memory, whatever its bound, [messages]
    is the list of the messages of the calls in order, so its length is the
    number of calls made; and a single call, on any store in which
    [messages] exists, appends exactly its own message to the end. *)
Theorem displayed_never_trimmed (n : Z) (key : option string)
    (calls : list call) :
  (exists dl,
      displayed (after_calls calls (empty_memory n key)) = Some dl
      /\ dl = map message_of calls
      /\ length dl = length calls)
  /\ (forall (slf : ChatMemory) (k : option string) (d : list Message)
        (fh : option (list Message)) (r c : string),
        displayed
          (after (add_message r c) (mkStore slf (mkSession k (Some d) fh)))
        = Some (d ++ [mkMessage r c])).
Proof.
  split.
  - exists (map message_of calls).
    rewrite empty_memory_store, after_calls_displayed.
    repeat split. apply length_map.
  - intros slf k d fh r c.
    destruct (add_message_displayed slf k d fh r c) as [fh' E].
    now rewrite E.
Qed.

(** C7.  After [clear_memory] on any store, both lists are empty,
    [get_context p] returns exactly the system message for every [p], and
    [max_messages] is what it was before the clear. *)
Theorem clear_resets_memory (s : Store) (p : string) :
  let s' := after clear_memory s in
  displayed s' = Some []
  /\ window s' = Some []
  /\ get_context p s' = (Returned [mkMessage "system" p], s')
  /\ max_messages (self s') = max_messages (self s).
Proof.
  destruct s as [slf [key d w]].
  cbn zeta. unfold after, clear_memory, bind, set_messages, set_full_history.
  cbn [snd fst session self messages full_history DEESEEK_API_KEY
       displayed window].
  repeat split.
  rewrite get_context_store. unfold slice_from.
  rewrite skipn_nil. reflexivity.
Qed.

(** C8.  [get_context] is read-only: on every store and for every prompt
    the store after the call is the store before it (so [messages],
    [full_history] and [max_messages] are untouched), and a second call with
    the same prompt gives the result of the first. *)
Theorem get_context_is_pure (s : Store) (p : string) :
  after (get_context p) s = s
  /\ get_context p (after (get_context p) s) = get_context p s.
Proof.
  destruct s as [slf [key d [w|]]]; split; reflexivity.
Qed.

(** C3, evaluated where the code departs from it.  A first memory with the
    default bound stores one message; a second [ChatMemory(0)] over the same
    session then sees a window of one entry and a bound of zero.  Its
    [get_context] returns the system message followed by the whole window,
    because the slice [full_history[-0:]] is [full_history[0:]], while the
    last zero entries of the window are the empty list. *)
Theorem get_context_zero_bound_returns_whole_window :
  let s8 := empty_memory MAX_CONTEXT_MESSAGES None in
  let s1 := after (add_message "user" "a") s8 in
  let s0 := ChatMemory_init 0 (session s1) in
  max_messages (self s0) = 0
  /\ window s0 = Some [mkMessage "user" "a"]
  /\ fst (get_context "sys" s0)
     = Returned [mkMessage "system" "sys"; mkMessage "user" "a"]
  /\ last_n (Z.to_nat 0) [mkMessage "user" "a"] = []
  /\ fst (get_context "sys" s0)
     <> Returned
          (mkMessage "system" "sys"
           :: last_n (Z.to_nat 0) [mkMessage "user" "a"]).
Proof.
  cbn zeta. repeat split. discriminate.
Qed.

(** Every store reached from the empty memory has both lists, the window
    being the last [max_messages] entries of [messages]. *)
Lemma after_operations_suffix (n : Z) (key : option string)
    (ops : list operation) :
  0 <= n ->
  forall d : list Message,
  exists d' : list Message,
    after_operations ops
      (mkStore (mkChatMemory n)
         (mkSession key (Some d) (Some (last_n (Z.to_nat n) d))))
    = mkStore (mkChatMemory n)
        (mkSession key (Some d') (Some (last_n (Z.to_nat n) d'))).
Proof.
  intros Hn. unfold after_operations.
  induction ops as [|o rest IH]; intros d.
  - exists d. reflexivity.
  - cbn [fold_left]. destruct o as [|r c|].
    + apply IH.
    + unfold after. cbn [perform].
      rewrite add_message_nonneg by exact Hn. cbn [snd max_messages].
      rewrite last_n_app_last. apply IH.
    + apply (IH []).
Qed.

(** C10.  After every sequence of [initialize_session], [add_message] and
    [clear_memory] on the empty memory with a bound [n] that is not
    negative, the window is the suffix of [messages] of length
    [min (len messages) n]; hence the two lists are equal while [messages]
    has at most [n] entries, and whenever the window is not empty its last
    entry is the last entry of [messages]. *)
Theorem window_is_suffix_of_displayed (n : Z) (key : option string)
    (ops : list operation) :
  0 <= n ->
  exists d w : list Message,
    displayed (after_operations ops (empty_memory n key)) = Some d
    /\ window (after_operations ops (empty_memory n key)) = Some w
    /\ w = last_n (Nat.min (length d) (Z.to_nat n)) d
    /\ (Z.of_nat (length d) <= n -> w = d)
    /\ (w <> [] -> d <> [] /\ forall dflt, last w dflt = last d dflt).
Proof.
  intros Hn.
  destruct (after_operations_suffix n key ops Hn []) as [d E].
  rewrite empty_memory_store.
  change (last_n (Z.to_nat n) (@nil Message)) with (@nil Message) in E.
  rewrite E.
  exists d, (last_n (Z.to_nat n) d).
  split; [reflexivity|]. split; [reflexivity|]. split; [|split].
  - unfold last_n. f_equal. lia.
  - intros Hlen. apply last_n_all. lia.
  - intros Hne. split.
    + intros ->. apply Hne. apply skipn_nil.
    + intros dflt. apply skipn_last. exact Hne.
Qed.

Lemma window_is_suffix_of_displayed_witness :
  0 <= 2 /\
  exists d w : list Message,
    displayed
      (after_operations
         [AddMessage "user" "a"; Initialize; AddMessage "assistant" "b";
          AddMessage "user" "c"]
         (empty_memory 2 None)) = Some d
    /\ window
         (after_operations
            [AddMessage "user" "a"; Initialize; AddMessage "assistant" "b";
             AddMessage "user" "c"]
            (empty_memory 2 None)) = Some w
    /\ w = last_n (Nat.min (length d) (Z.to_nat 2)) d
    /\ (Z.of_nat (length d) <= 2 -> w = d)
    /\ (w <> [] -> d <> [] /\ forall dflt, last w dflt = last d dflt).
Proof.
  split; [lia|].
  apply (window_is_suffix_of_displayed 2 None
           [AddMessage "user" "a"; Initialize; AddMessage "assistant" "b";
            AddMessage "user" "c"]).
  lia.
Defined.

(** ** The chat client *)

(** The turn up to the point where the network answers. *)
Lemma query_deepseek_sends (requests_post : Request -> outcome Response)
    (slf : ChatMemory) (key : string) (d : option (list Message))
    (w : list Message) (prompt system_prompt model : string)
    (temperature : QArith_base.Q) :
  let s := mkStore slf (mkSession (Some key) d (Some w)) in
  query_deepseek requests_post prompt system_prompt model temperature s =
  try_except_RequestException
    (response <-
       lift (requests_post
               (sent_request slf key w prompt system_prompt model
                  temperature)) ;;
     raise_for_status response ;;
     (if status_code response =? 200 then
        response_data <- lift (json response) ;;
        assistant_response <- lift (assistant_content response_data) ;;
        add_message "user" prompt ;;
        add_message "assistant" assistant_response ;;
        ret (Some response_data)
      else
        ret None))
    (fun _ => ret None) s.
Proof. reflexivity. Qed.

(** C6.  When the request of a chat turn fails, by an exception of the
    transport or by a status other than 200, [query_deepseek] returns [None]
    and the store after the call is the store before it: window and
    displayed list are unchanged. *)
Theorem failed_request_leaves_memory_unchanged
    (requests_post : Request -> outcome Response)
    (slf : ChatMemory) (key : string) (d : option (list Message))
    (w : list Message) (prompt system_prompt model : string)
    (temperature : QArith_base.Q) :
  let s := mkStore slf (mkSession (Some key) d (Some w)) in
  request_fails
    (requests_post
       (sent_request slf key w prompt system_prompt model temperature)) ->
  query_deepseek requests_post prompt system_prompt model temperature s
  = (Returned None, s).
Proof.
  intros s Hfail. unfold s. rewrite query_deepseek_sends.
  unfold try_except_RequestException, bind, lift.
  destruct (requests_post _) as [response|e]; cbn in Hfail.
  - unfold raise_for_status.
    destruct ((400 <=? status_code response) && (status_code response <? 600)).
    + reflexivity.
    + cbn. apply Z.eqb_neq in Hfail. rewrite Hfail. reflexivity.
  - rewrite Hfail. reflexivity.
Qed.

Lemma failed_request_leaves_memory_unchanged_witness :
  request_fails (Returned (mkResponse 503 (Raised JSONDecodeError)))
  /\ query_deepseek
       (fun _ => Returned (mkResponse 503 (Raised JSONDecodeError)))
       "hello" "sys" "deepseek-chat" (QArith_base.Qmake 7 10)
       (mkStore (mkChatMemory 8)
          (mkSession (Some "key") (Some [mkMessage "user" "a"])
             (Some [mkMessage "user" "a"])))
     = (Returned None,
        mkStore (mkChatMemory 8)
          (mkSession (Some "key") (Some [mkMessage "user" "a"])
             (Some [mkMessage "user" "a"]))).
Proof.
  split; [cbn; discriminate|].
  apply (failed_request_leaves_memory_unchanged
           (fun _ => Returned (mkResponse 503 (Raised JSONDecodeError)))
           (mkChatMemory 8) "key" (Some [mkMessage "user" "a"])
           [mkMessage "user" "a"] "hello" "sys" "deepseek-chat"
           (QArith_base.Qmake 7 10)).
  cbn. discriminate.
Defined.

(** C1 as stated fails: a 200 response whose assistant content is the empty
    string changes both lists of an empty memory. *)
Lemma empty_reply_mutates_memory :
  let body := mkResponseData (Some [mkChoice (Some (mkReplyMessage (Some "")))]) in
  let post := fun _ : Request => Returned (mkResponse 200 (Returned body)) in
  let s := mkStore (mkChatMemory 8) (mkSession (Some "key") (Some []) (Some [])) in
  let s' :=
    after (query_deepseek post "hi" "sys" "deepseek-chat"
             (QArith_base.Qmake 7 10)) s in
  assistant_content body = Returned ""
  /\ displayed s = Some []
  /\ window s = Some []
  /\ displayed s' = Some [mkMessage "user" "hi"; mkMessage "assistant" ""]
  /\ window s' = Some [mkMessage "user" "hi"; mkMessage "assistant" ""].
Proof. cbn zeta. repeat split. Qed.

(** C1, amended.  On a 200 response whose assistant content is empty, or is
    read as the empty string because a key is missing, the turn does what it
    does on any 200 response: it runs [add_message("user", prompt)] and then
    [add_message("assistant", "")] and returns the response body.  With a
    bound that is not negative both calls return: the displayed list gains
    the two messages and the window is the last [max_messages] entries of
    the old window followed by them. *)
Theorem empty_reply_is_stored
    (requests_post : Request -> outcome Response)
    (slf : ChatMemory) (key : string) (d w : list Message)
    (prompt system_prompt model : string) (temperature : QArith_base.Q)
    (response : Response) (body : ResponseData) :
  let s := mkStore slf (mkSession (Some key) (Some d) (Some w)) in
  let turn := [mkMessage "user" prompt; mkMessage "assistant" ""] in
  requests_post
    (sent_request slf key w prompt system_prompt model temperature)
  = Returned response ->
  status_code response = 200 ->
  json response = Returned body ->
  assistant_content body = Returned "" ->
  query_deepseek requests_post prompt system_prompt model temperature s
  = (add_message "user" prompt ;;
     add_message "assistant" "" ;;
     ret (Some body)) s
  /\ (0 <= max_messages slf ->
      query_deepseek requests_post prompt system_prompt model temperature s
      = (Returned (Some body),
         mkStore slf
           (mkSession (Some key) (Some (d ++ turn))
              (Some (last_n (Z.to_nat (max_messages slf)) (w ++ turn)))))).
Proof.
  intros s turn Hpost Hstatus Hjson Hcontent.
  assert (Hrun :
    query_deepseek requests_post prompt system_prompt model temperature s
    = (add_message "user" prompt ;;
       add_message "assistant" "" ;;
       ret (Some body)) s).
  { unfold s. rewrite query_deepseek_sends.
    unfold try_except_RequestException.
    unfold bind at 1. unfold lift at 1. rewrite Hpost.
    unfold bind at 1. unfold raise_for_status. rewrite Hstatus.
    cbn [Z.leb Z.ltb Z.compare Pos.compare Pos.compare_cont andb Z.eqb
         Pos.eqb ret].
    unfold bind at 1. unfold lift at 1. rewrite Hjson.
    unfold bind at 1. unfold lift at 1. rewrite Hcontent.
    change ((add_message "user" prompt ;;
             add_message "assistant" "" ;;
             ret (Some body))
              (mkStore slf (mkSession (Some key) (Some d) (Some w))))
      with ((add_message "user" prompt ;;
             add_message "assistant" "" ;;
             ret (Some body)) s).
    destruct ((add_message "user" prompt ;;
               add_message "assistant" "" ;;
               ret (Some body)) s) as [[a|e] s'] eqn:E; [reflexivity|].
    assert (He : e = IndexError); [|subst e; reflexivity].
    revert E. unfold s, bind. rewrite add_message_store.
    destruct (trim_loop_outcome (max_messages slf)
                (w ++ [mkMessage "user" prompt])) as [H1|H1]; rewrite H1.
    - rewrite add_message_store.
      match goal with
      | |- context [trim_loop ?n ?l] =>
          destruct (trim_loop_outcome n l) as [H2|H2]; rewrite H2
      end.
      + discriminate.
      + congruence.
    - congruence. }
  split; [exact Hrun|].
  intros Hn. rewrite Hrun. unfold s, bind.
  rewrite add_message_nonneg by exact Hn.
  rewrite add_message_nonneg by exact Hn.
  unfold ret. rewrite last_n_app_last, <- !app_assoc. reflexivity.
Qed.

Lemma empty_reply_is_stored_witness :
  let body := mkResponseData None in
  let post := fun _ : Request => Returned (mkResponse 200 (Returned body)) in
  let s := mkStore (mkChatMemory 8) (mkSession (Some "key") (Some []) (Some [])) in
  assistant_content body = Returned ""
  /\ 0 <= 8
  /\ query_deepseek post "hi" "sys" "deepseek-chat" (QArith_base.Qmake 7 10) s
     = (Returned (Some body),
        mkStore (mkChatMemory 8)
          (mkSession (Some "key")
             (Some ([] ++ [mkMessage "user" "hi"; mkMessage "assistant" ""]))
             (Some (last_n (Z.to_nat 8)
                      ([] ++ [mkMessage "user" "hi";
                              mkMessage "assistant" ""]))))).
Proof.
  cbn zeta. split; [reflexivity|]. split; [lia|].
  apply (proj2
    (empty_reply_is_stored
       (fun _ : Request =>
          Returned (mkResponse 200 (Returned (mkResponseData None))))
       (mkChatMemory 8) "key" [] [] "hi" "sys" "deepseek-chat"
       (QArith_base.Qmake 7 10)
       (mkResponse 200 (Returned (mkResponseData None)))
       (mkResponseData None)
       eq_refl eq_refl eq_refl eq_refl)).
  cbn. lia.
Defined.

(** An empty list of choices is the one shape of a 200 response without
    assistant content that stores nothing: the lookup [[0]] raises
    [IndexError], which is not caught here and leaves the store as it was. *)
Lemma empty_choices_raise (requests_post : Request -> outcome Response)
    (slf : ChatMemory) (key : string) (d : option (list Message))
    (w : list Message) (prompt system_prompt model : string)
    (temperature : QArith_base.Q) :
  let s := mkStore slf (mkSession (Some key) d (Some w)) in
  requests_post
    (sent_request slf key w prompt system_prompt model temperature)
  = Returned (mkResponse 200 (Returned (mkResponseData (Some [])))) ->
  query_deepseek requests_post prompt system_prompt model temperature s
  = (Raised IndexError, s).
Proof.
  intros s Hpost. unfold s. rewrite query_deepseek_sends.
  unfold try_except_RequestException, bind, lift. rewrite Hpost.
  reflexivity.
Qed.

(** ** The file extractor *)

Lemma string_length_append (s1 s2 : string) :
  String.length (s1 ++ s2)%string
  = (String.length s1 + String.length s2)%nat.
Proof.
  induction s1 as [|a s1 IH]; cbn [String.append String.length].
  - reflexivity.
  - now rewrite IH.
Qed.

Lemma string_app_assoc (a b c : string) :
  ((a ++ b) ++ c = a ++ (b ++ c))%string.
Proof.
  induction a as [|x a IH]; cbn [String.append]; [reflexivity|].
  now rewrite IH.
Qed.

Lemma string_app_nil_r (a : string) : (a ++ "" = a)%string.
Proof.
  induction a as [|x a IH]; cbn [String.append]; [reflexivity|].
  now rewrite IH.
Qed.

(** [s[:k]] is a prefix of [s] of length [min k (len s)]. *)
Lemma substring_prefix_split (k : nat) :
  forall s : string,
    exists rest : string,
      s = (substring 0 k s ++ rest)%string
      /\ String.length (substring 0 k s) = Nat.min k (String.length s).
Proof.
  induction k as [|k IH]; intros [|a s].
  - exists "". split; reflexivity.
  - exists (String a s). split; reflexivity.
  - exists "". split; reflexivity.
  - destruct (IH s) as (rest & Hs & Hlen).
    exists rest. cbn [substring String.append String.length Nat.min].
    split; [now rewrite <- Hs | now rewrite Hlen].
Qed.

(** The text of a PDF is the texts of its pages in order, a page without
    text counting as the empty string. *)
Lemma pdf_text_concat (pages : list (option string)) :
  forall acc : string,
    fold_left
      (fun text page =>
         (text ++ match page with Some t => t | None => "" end)%string)
      pages acc
    = (acc
       ++ String.concat ""
            (map (fun page => match page with Some t => t | None => "" end)
               pages))%string.
Proof.
  induction pages as [|page pages IH]; intros acc; cbn [fold_left map].
  - cbn [String.concat]. now rewrite string_app_nil_r.
  - rewrite IH, string_app_assoc. f_equal.
    destruct pages as [|page' pages]; cbn [map String.concat].
    + now rewrite string_app_nil_r.
    + reflexivity.
Qed.

Lemma substring_prefix_length (k : nat) :
  forall s : string, (String.length (substring 0 k s) <= k)%nat.
Proof.
  induction k as [|k IH]; intros [|a s]; cbn [substring String.length];
    try lia.
  specialize (IH s). lia.
Qed.

Lemma str_slice_to_length (j : Z) (s : string) :
  0 <= j -> Z.of_nat (String.length (str_slice_to j s)) <= j.
Proof.
  intros Hj. unfold str_slice_to.
  pose proof (substring_prefix_length (Z.to_nat j) s). lia.
Qed.

Section FileExtractorProperties.

Variable pdf_pages : UploadedFile -> outcome (list (option string)).
Variable chardet_detect : list Byte.byte -> option (option string).
Variable decode : list Byte.byte -> string -> outcome string.

Let one_file := process_file pdf_pages chardet_detect decode.
Let loop := process_loop pdf_pages chardet_detect decode.
Let results := processed pdf_pages chardet_detect decode.

Lemma process_loop_processed (files : list UploadedFile) :
  forall acc : list string,
    loop files acc = acc ++ results files.
Proof.
  induction files as [|file rest IH]; intros acc.
  - cbn. now rewrite app_nil_r.
  - unfold loop, results, processed in *. cbn [process_loop flat_map].
    fold one_file.
    destruct (one_file file) as [s|e].
    + rewrite IH, <- app_assoc. reflexivity.
    + rewrite IH. reflexivity.
Qed.

Lemma processed_app (before rest : list UploadedFile) :
  results (before ++ rest) = results before ++ results rest.
Proof. unfold results, processed. apply flat_map_app. Qed.

(** What one successfully processed file contributes. *)
Lemma process_file_returned (file : UploadedFile) (s : string) :
  one_file file = Returned s ->
  exists tag text : string,
    (tag = "PDF_CONTENT" \/ tag = "FILE_CONTENT")
    /\ s = (tag ++ ":" ++ name file ++ ": "
            ++ str_slice_to MAX_FILE_CONTENT text ++ "...")%string.
Proof.
  unfold one_file, process_file.
  destruct (String.eqb (type file) "application/pdf").
  - destruct (pdf_pages file) as [pages|e]; [|discriminate].
    intros [= <-]. exists "PDF_CONTENT", (pdf_text pages). auto.
  - destruct (read file) as [raw|e]; [|discriminate].
    destruct (match chardet_detect raw with
              | Some v => v
              | None => Some "utf-8-sig"
              end) as [enc|]; [|discriminate].
    destruct (decode raw enc) as [text|e]; [|discriminate].
    intros [= <-]. exists "FILE_CONTENT", text. auto.
Qed.

End FileExtractorProperties.

(** C9 as stated fails: a text file of a thousand characters named [f] is
    processed successfully into a string of 1019 characters. *)
Lemma extracted_string_exceeds_cap :
  let file := mkFile "f" "text/plain" (Returned []) in
  let text := string_of_list_ascii (repeat "a"%char 1000) in
  exists s : string,
    process_file (fun _ => Raised TypeError) (fun _ => Some (Some "ascii"))
      (fun _ _ => Returned text) file = Returned s
    /\ String.length text = 1000%nat
    /\ String.length s = 1019%nat
    /\ (Z.to_nat MAX_FILE_CONTENT < String.length s)%nat.
Proof.
  cbn zeta. eexists. split; [reflexivity|].
  split; [vm_compute; reflexivity|].
  split; [vm_compute; reflexivity|].
  vm_compute. lia.
Qed.

(** C9, amended.  A file that is processed successfully contributes the
    string [TAG:name: excerpt...].  [TAG] tells the source kind: it is
    [PDF_CONTENT] exactly when [file.type] is ["application/pdf"], and then
    the extracted text is the texts of the pages of the file in order (a
    page without text giving nothing); otherwise it is [FILE_CONTENT] and the
    extracted text is the bytes read from the file, decoded with the
    detected encoding (["utf-8-sig"] when the detector's result has no such
    key).  [name] is the file name, and [excerpt] is the beginning of the
    extracted text, of length [min (len text) 1000]: the cap of 1000 bounds
    the excerpt, and the whole string has at most [1000 + len name + 18]
    characters.  In a batch the string stands, in file order, among those of
    the other files processed successfully, all joined by newlines. *)
Theorem extracted_string_shape
    (pdf_pages : UploadedFile -> outcome (list (option string)))
    (chardet_detect : list Byte.byte -> option (option string))
    (decode : list Byte.byte -> string -> outcome string)
    (file : UploadedFile) (s : string) :
  process_file pdf_pages chardet_detect decode file = Returned s ->
  (exists tag text excerpt unused : string,
      ((String.eqb (type file) "application/pdf" = true
        /\ tag = "PDF_CONTENT"
        /\ exists pages : list (option string),
             pdf_pages file = Returned pages
             /\ text
                = String.concat ""
                    (map (fun page =>
                            match page with Some t => t | None => "" end)
                       pages))
       \/ (String.eqb (type file) "application/pdf" = false
           /\ tag = "FILE_CONTENT"
           /\ exists (raw : list Byte.byte) (enc : string),
                read file = Returned raw
                /\ match chardet_detect raw with
                   | Some v => v
                   | None => Some "utf-8-sig"
                   end = Some enc
                /\ decode raw enc = Returned text))
      /\ text = (excerpt ++ unused)%string
      /\ String.length excerpt = Nat.min (String.length text) 1000
      /\ s = (tag ++ ":" ++ name file ++ ": " ++ excerpt ++ "...")%string
      /\ (String.length s <= 1000 + String.length (name file) + 18)%nat)
  /\ (forall before rest : list UploadedFile,
        process_uploaded_files pdf_pages chardet_detect decode
          (before ++ file :: rest)
        = join newline
            (processed pdf_pages chardet_detect decode before
             ++ s :: processed pdf_pages chardet_detect decode rest)).
Proof.
  intros Hs. split.
  - assert (Hshape :
      forall tag text : string,
        (tag = "PDF_CONTENT" \/ tag = "FILE_CONTENT") ->
        s = (tag ++ ":" ++ name file ++ ": "
             ++ str_slice_to MAX_FILE_CONTENT text ++ "...")%string ->
        exists excerpt unused : string,
          text = (excerpt ++ unused)%string
          /\ String.length excerpt = Nat.min (String.length text) 1000
          /\ s = (tag ++ ":" ++ name file ++ ": " ++ excerpt ++ "...")%string
          /\ (String.length s <= 1000 + String.length (name file) + 18)%nat).
    { intros tag text Htag Es.
      destruct (substring_prefix_split (Z.to_nat MAX_FILE_CONTENT) text)
        as (unused & Hsplit & Hlen).
      change (Z.to_nat MAX_FILE_CONTENT) with 1000%nat in Hlen.
      exists (str_slice_to MAX_FILE_CONTENT text), unused.
      split; [exact Hsplit|]. split.
      - unfold str_slice_to. change (Z.to_nat MAX_FILE_CONTENT) with 1000%nat.
        rewrite Hlen. lia.
      - split; [exact Es|].
        rewrite Es, !string_length_append.
        unfold str_slice_to. change (Z.to_nat MAX_FILE_CONTENT) with 1000%nat.
        rewrite Hlen.
        destruct Htag as [-> | ->]; cbn [String.length]; lia. }
    revert Hs. unfold process_file.
    destruct (String.eqb (type file) "application/pdf") eqn:Htype.
    + destruct (pdf_pages file) as [pages|e] eqn:Hpages; [|discriminate].
      intros [= Es]. symmetry in Es.
      destruct (Hshape "PDF_CONTENT" (pdf_text pages) (or_introl eq_refl) Es)
        as (excerpt & unused & H1 & H2 & H3 & H4).
      exists "PDF_CONTENT", (pdf_text pages), excerpt, unused.
      split; [|repeat split; assumption].
      left. split; [reflexivity|]. split; [reflexivity|].
      exists pages. split; [reflexivity|].
      unfold pdf_text. rewrite pdf_text_concat. reflexivity.
    + destruct (read file) as [raw|e] eqn:Hread; [|discriminate].
      destruct (match chardet_detect raw with
                | Some v => v
                | None => Some "utf-8-sig"
                end) as [enc|] eqn:Henc; [|discriminate].
      destruct (decode raw enc) as [text|e] eqn:Hdecode; [|discriminate].
      intros [= Es]. symmetry in Es.
      destruct (Hshape "FILE_CONTENT" text (or_intror eq_refl) Es)
        as (excerpt & unused & H1 & H2 & H3 & H4).
      exists "FILE_CONTENT", text, excerpt, unused.
      split; [|repeat split; assumption].
      right. split; [reflexivity|]. split; [reflexivity|].
      exists raw, enc. repeat split; assumption.
  - intros before rest. unfold process_uploaded_files.
    rewrite process_loop_processed, processed_app.
    cbn [app]. f_equal. f_equal.
    unfold processed at 1. cbn [flat_map]. rewrite Hs. reflexivity.
Qed.

Lemma extracted_string_shape_witness :
  let file := mkFile "notes.txt" "text/plain" (Returned []) in
  let pdf_pages := fun _ : UploadedFile => @Raised (list (option string)) TypeError in
  let chardet_detect := fun _ : list Byte.byte => Some (Some "ascii") in
  let decode := fun (_ : list Byte.byte) (_ : string) => Returned "hello" in
  process_file pdf_pages chardet_detect decode file
  = Returned "FILE_CONTENT:notes.txt: hello..."
  /\ (exists tag text excerpt unused : string,
        ((String.eqb (type file) "application/pdf" = true
          /\ tag = "PDF_CONTENT"
          /\ exists pages : list (option string),
               pdf_pages file = Returned pages
               /\ text
                  = String.concat ""
                      (map (fun page =>
                              match page with Some t => t | None => "" end)
                         pages))
         \/ (String.eqb (type file) "application/pdf" = false
             /\ tag = "FILE_CONTENT"
             /\ exists (raw : list Byte.byte) (enc : string),
                  read file = Returned raw
                  /\ match chardet_detect raw with
                     | Some v => v
                     | None => Some "utf-8-sig"
                     end = Some enc
                  /\ decode raw enc = Returned text))
        /\ text = (excerpt ++ unused)%string
        /\ String.length excerpt = Nat.min (String.length text) 1000
        /\ "FILE_CONTENT:notes.txt: hello..."
           = (tag ++ ":" ++ name file ++ ": " ++ excerpt ++ "...")%string
        /\ (String.length "FILE_CONTENT:notes.txt: hello..."
            <= 1000 + String.length (name file) + 18)%nat)
  /\ process_uploaded_files pdf_pages chardet_detect decode ([file] ++ file :: [])
     = join newline
         (processed pdf_pages chardet_detect decode [file]
          ++ "FILE_CONTENT:notes.txt: hello..."
          :: processed pdf_pages chardet_detect decode []).
Proof.
  cbn zeta. split; [reflexivity|].
  pose proof
    (extracted_string_shape
       (fun _ : UploadedFile => @Raised (list (option string)) TypeError)
       (fun _ : list Byte.byte => Some (Some "ascii"))
       (fun (_ : list Byte.byte) (_ : string) => Returned "hello")
       (mkFile "notes.txt" "text/plain" (Returned []))
       "FILE_CONTENT:notes.txt: hello..." eq_refl) as [Hshape Hbatch].
  split; [exact Hshape | exact (Hbatch [_] [])].
Defined.

(** * Further properties of the code *)

(** ** The session memory *)

(** With a negative bound the loop pops everything and then raises. *)
Lemma trim_loop_negative (n : Z) (fh : list Message) :
  n < 0 -> trim_loop n fh = (fh, Raised IndexError, []).
Proof.
  intros Hn. induction fh as [|m rest IH].
  - simpl. destruct (n <? 0) eqn:E; [reflexivity|].
    apply Z.ltb_ge in E. lia.
  - cbn [trim_loop].
    destruct (n <? Z.of_nat (length (m :: rest))) eqn:E.
    + rewrite IH. reflexivity.
    + apply Z.ltb_ge in E. cbn [length] in E. lia.
Qed.

(** The operations never remove a list from the session. *)
Lemma perform_keeps_lists (slf : ChatMemory) (key : option string)
    (o : operation) (d w : list Message) :
  exists d' w',
    after (perform o) (mkStore slf (mkSession key (Some d) (Some w))) =
    mkStore slf (mkSession key (Some d') (Some w')).
Proof.
  destruct o as [|r c|]; unfold after; cbn [perform].
  - exists d, w. reflexivity.
  - rewrite add_message_store. cbn [snd]. eauto.
  - exists [], []. reflexivity.
Qed.

Lemma after_operations_keeps_lists (slf : ChatMemory) (key : option string)
    (ops : list operation) :
  forall d w : list Message,
  exists d' w',
    after_operations ops (mkStore slf (mkSession key (Some d) (Some w))) =
    mkStore slf (mkSession key (Some d') (Some w')).
Proof.
  unfold after_operations.
  induction ops as [|o rest IH]; intros d w.
  - exists d, w. reflexivity.
  - cbn [fold_left].
    destruct (perform_keeps_lists slf key o d w) as (d1 & w1 & E).
    rewrite E. apply IH.
Qed.

Lemma last_n_idempotent {A : Type} (k : nat) (l : list A) :
  last_n k (last_n k l) = last_n k l.
Proof. apply last_n_all. rewrite length_last_n. lia. Qed.

(** X1.  The history survives a new instance.  After any sequence of
    operations on a memory of any bound, building another [ChatMemory], of
    any bound [m], over the same session leaves the session exactly as it
    was and only sets [max_messages] to [m]; and running
    [initialize_session] a second time changes nothing. *)
Theorem new_instance_keeps_history (n m : Z) (key : option string)
    (ops : list operation) (s0 : Store) :
  let s := after_operations ops (empty_memory n key) in
  session (ChatMemory_init m (session s)) = session s
  /\ max_messages (self (ChatMemory_init m (session s))) = m
  /\ after initialize_session (after initialize_session s0)
     = after initialize_session s0.
Proof.
  cbn zeta. rewrite empty_memory_store.
  destruct (after_operations_keeps_lists (mkChatMemory n) key ops [] [])
    as (d & w & E).
  rewrite E. repeat split.
  destruct s0 as [slf [k [d0|] fh]]; reflexivity.
Qed.

(** X2.  A negative bound makes every [add_message] raise [IndexError]:
    the message is appended to [messages], the loop then pops the whole
    window and calls [pop(0)] on the empty list. *)
Theorem negative_bound_add_message_raises (n : Z) (key : option string)
    (d w : list Message) (r c : string) :
  n < 0 ->
  add_message r c
    (mkStore (mkChatMemory n) (mkSession key (Some d) (Some w)))
  = (Raised IndexError,
     mkStore (mkChatMemory n)
       (mkSession key (Some (d ++ [mkMessage r c])) (Some []))).
Proof.
  intros Hn. rewrite add_message_store. cbn [max_messages].
  rewrite (trim_loop_negative _ _ Hn). reflexivity.
Qed.

Lemma negative_bound_add_message_raises_witness :
  -1 < 0
  /\ add_message "user" "a"
       (mkStore (mkChatMemory (-1))
          (mkSession None (Some []) (Some [mkMessage "assistant" "b"])))
     = (Raised IndexError,
        mkStore (mkChatMemory (-1))
          (mkSession None (Some ([] ++ [mkMessage "user" "a"])) (Some []))).
Proof.
  split; [lia|].
  apply (negative_bound_add_message_raises (-1) None []
           [mkMessage "assistant" "b"] "user" "a").
  lia.
Defined.

(** X3.  On every store reached from the empty memory with a bound [n]
    that is not negative, the slice in [get_context] cuts nothing: the call
    returns the system message followed by the whole window, so at most
    [n + 1] messages. *)
Theorem context_is_system_then_window (n : Z) (key : option string)
    (ops : list operation) (p : string) :
  0 <= n ->
  exists w : list Message,
    window (after_operations ops (empty_memory n key)) = Some w
    /\ fst (get_context p (after_operations ops (empty_memory n key)))
       = Returned (system_message p :: w)
    /\ Z.of_nat (length (system_message p :: w)) <= n + 1.
Proof.
  intros Hn.
  destruct (after_operations_suffix n key ops Hn []) as [d E].
  rewrite empty_memory_store.
  change (last_n (Z.to_nat n) (@nil Message)) with (@nil Message) in E.
  rewrite E.
  exists (last_n (Z.to_nat n) d).
  split; [reflexivity|]. split.
  - rewrite get_context_store. cbn [fst max_messages].
    destruct (Z.eq_dec n 0) as [->|Hne].
    + rewrite slice_from_zero. reflexivity.
    + rewrite slice_from_neg by lia. now rewrite last_n_idempotent.
  - cbn [length]. rewrite length_last_n. lia.
Qed.

Lemma context_is_system_then_window_witness :
  0 <= 1
  /\ exists w : list Message,
       window
         (after_operations [AddMessage "user" "a"; AddMessage "assistant" "b"]
            (empty_memory 1 None)) = Some w
       /\ fst (get_context "sys"
                 (after_operations
                    [AddMessage "user" "a"; AddMessage "assistant" "b"]
                    (empty_memory 1 None)))
          = Returned (system_message "sys" :: w)
       /\ Z.of_nat (length (system_message "sys" :: w)) <= 1 + 1.
Proof.
  split; [lia|].
  apply (context_is_system_then_window 1 None
           [AddMessage "user" "a"; AddMessage "assistant" "b"] "sys").
  lia.
Defined.

(** X4.  [clear_memory] returns and brings any store, whatever its lists
    held and whether they existed, to the store a first [ChatMemory] with
    the same bound builds on a fresh session with the same key: the key is
    kept and every later sequence of calls runs as on the empty memory. *)
Theorem clear_memory_restores_empty_memory (s : Store) (calls : list call) :
  fst (clear_memory s) = Returned tt
  /\ after clear_memory s
     = empty_memory (max_messages (self s)) (DEESEEK_API_KEY (session s))
  /\ after_calls calls (after clear_memory s)
     = after_calls calls
         (empty_memory (max_messages (self s)) (DEESEEK_API_KEY (session s))).
Proof.
  destruct s as [[n] [key d w]].
  assert (E : after clear_memory (mkStore (mkChatMemory n) (mkSession key d w))
              = empty_memory n key) by reflexivity.
  cbn [self session max_messages DEESEEK_API_KEY].
  rewrite E. repeat split.
Qed.

(** ** The chat client *)

(** A 200 response with a parsed body and a content runs the two
    [add_message] calls. *)
Lemma query_deepseek_on_content (requests_post : Request -> outcome Response)
    (slf : ChatMemory) (key : string) (d : option (list Message))
    (w : list Message) (prompt system_prompt model : string)
    (temperature : QArith_base.Q) (response : Response)
    (body : ResponseData) (c : string) :
  let s := mkStore slf (mkSession (Some key) d (Some w)) in
  requests_post
    (sent_request slf key w prompt system_prompt model temperature)
  = Returned response ->
  status_code response = 200 ->
  json response = Returned body ->
  assistant_content body = Returned c ->
  query_deepseek requests_post prompt system_prompt model temperature s
  = try_except_RequestException
      (add_message "user" prompt ;;
       add_message "assistant" c ;;
       ret (Some body))
      (fun _ => ret None) s.
Proof.
  intros s Hpost Hstatus Hjson Hcontent.
  unfold s. rewrite query_deepseek_sends.
  unfold try_except_RequestException.
  unfold bind at 1. unfold lift at 1. rewrite Hpost.
  unfold bind at 1. unfold raise_for_status. rewrite Hstatus.
  cbn [Z.leb Z.ltb Z.compare Pos.compare Pos.compare_cont andb Z.eqb
       Pos.eqb ret].
  unfold bind at 1. unfold lift at 1. rewrite Hjson.
  unfold bind at 1. unfold lift at 1. rewrite Hcontent.
  reflexivity.
Qed.

(** X6.  Without the key ['DEESEEK_API_KEY'] in the session the turn raises
    [KeyError] before the [try] is entered: whatever the network would
    answer, nothing is sent, nothing is caught and the store is unchanged. *)
Theorem query_without_api_key_raises
    (requests_post : Request -> outcome Response)
    (slf : ChatMemory) (d fh : option (list Message))
    (prompt system_prompt model : string) (temperature : QArith_base.Q) :
  query_deepseek requests_post prompt system_prompt model temperature
    (mkStore slf (mkSession None d fh))
  = (Raised KeyError, mkStore slf (mkSession None d fh)).
Proof. reflexivity. Qed.

(** X7.  A successful turn stores the exchange.  On a 200 response whose
    body parses and holds the assistant content [c], with a bound that is
    not negative, [query_deepseek] returns the body, [messages] gains the
    user prompt and then the reply, and the window is the last
    [max_messages] entries of the old window followed by the two. *)
Theorem successful_turn_stores_exchange
    (requests_post : Request -> outcome Response)
    (slf : ChatMemory) (key : string) (d w : list Message)
    (prompt system_prompt model : string) (temperature : QArith_base.Q)
    (response : Response) (body : ResponseData) (c : string) :
  let s := mkStore slf (mkSession (Some key) (Some d) (Some w)) in
  let exchange := [mkMessage "user" prompt; mkMessage "assistant" c] in
  0 <= max_messages slf ->
  requests_post
    (sent_request slf key w prompt system_prompt model temperature)
  = Returned response ->
  status_code response = 200 ->
  json response = Returned body ->
  assistant_content body = Returned c ->
  query_deepseek requests_post prompt system_prompt model temperature s
  = (Returned (Some body),
     mkStore slf
       (mkSession (Some key) (Some (d ++ exchange))
          (Some (last_n (Z.to_nat (max_messages slf)) (w ++ exchange))))).
Proof.
  intros s exchange Hn Hpost Hstatus Hjson Hcontent.
  unfold s.
  rewrite (query_deepseek_on_content _ _ _ _ _ _ _ _ _ _ _ c
             Hpost Hstatus Hjson Hcontent).
  unfold try_except_RequestException, bind.
  rewrite add_message_nonneg by exact Hn.
  rewrite add_message_nonneg by exact Hn.
  unfold ret. rewrite last_n_app_last, <- !app_assoc. reflexivity.
Qed.

Lemma successful_turn_stores_exchange_witness :
  let body :=
    mkResponseData (Some [mkChoice (Some (mkReplyMessage (Some "hello")))]) in
  let post := fun _ : Request => Returned (mkResponse 200 (Returned body)) in
  0 <= 1
  /\ query_deepseek post "hi" "sys" "deepseek-chat" (QArith_base.Qmake 7 10)
       (mkStore (mkChatMemory 1)
          (mkSession (Some "key") (Some []) (Some [])))
     = (Returned (Some body),
        mkStore (mkChatMemory 1)
          (mkSession (Some "key")
             (Some ([] ++ [mkMessage "user" "hi";
                           mkMessage "assistant" "hello"]))
             (Some (last_n (Z.to_nat 1)
                      ([] ++ [mkMessage "user" "hi";
                              mkMessage "assistant" "hello"]))))).
Proof.
  cbn zeta. split; [lia|].
  apply (successful_turn_stores_exchange
           (fun _ : Request =>
              Returned
                (mkResponse 200
                   (Returned
                      (mkResponseData
                         (Some [mkChoice
                                  (Some (mkReplyMessage (Some "hello")))])))))
           (mkChatMemory 1) "key" [] [] "hi" "sys" "deepseek-chat"
           (QArith_base.Qmake 7 10)
           (mkResponse 200
              (Returned
                 (mkResponseData
                    (Some [mkChoice (Some (mkReplyMessage (Some "hello")))]))))
           (mkResponseData
              (Some [mkChoice (Some (mkReplyMessage (Some "hello")))]))
           "hello");
    [cbn; lia | reflexivity | reflexivity | reflexivity | reflexivity].
Defined.

(** X9.  A 200 response whose body does not parse stores nothing: when
    [response.json()] raises a [RequestException] the turn returns [None],
    any other exception reaches the caller, and the store is unchanged
    either way. *)
Theorem unparsed_body_stores_nothing
    (requests_post : Request -> outcome Response)
    (slf : ChatMemory) (key : string) (d : option (list Message))
    (w : list Message) (prompt system_prompt model : string)
    (temperature : QArith_base.Q) (response : Response) (e : exn) :
  let s := mkStore slf (mkSession (Some key) d (Some w)) in
  requests_post
    (sent_request slf key w prompt system_prompt model temperature)
  = Returned response ->
  status_code response = 200 ->
  json response = Raised e ->
  query_deepseek requests_post prompt system_prompt model temperature s
  = (if is_RequestException e then Returned None else Raised e, s).
Proof.
  intros s Hpost Hstatus Hjson. unfold s. rewrite query_deepseek_sends.
  unfold try_except_RequestException.
  unfold bind at 1. unfold lift at 1. rewrite Hpost.
  unfold bind at 1. unfold raise_for_status. rewrite Hstatus.
  cbn [Z.leb Z.ltb Z.compare Pos.compare Pos.compare_cont andb Z.eqb
       Pos.eqb ret].
  unfold bind at 1. unfold lift at 1. rewrite Hjson.
  destruct (is_RequestException e); reflexivity.
Qed.

Lemma unparsed_body_stores_nothing_witness :
  query_deepseek
    (fun _ => Returned (mkResponse 200 (Raised JSONDecodeError)))
    "hi" "sys" "deepseek-chat" (QArith_base.Qmake 7 10)
    (mkStore (mkChatMemory 8) (mkSession (Some "key") (Some []) (Some [])))
  = (Returned None,
     mkStore (mkChatMemory 8) (mkSession (Some "key") (Some []) (Some []))).
Proof.
  exact (unparsed_body_stores_nothing
           (fun _ => Returned (mkResponse 200 (Raised JSONDecodeError)))
           (mkChatMemory 8) "key" (Some []) [] "hi" "sys" "deepseek-chat"
           (QArith_base.Qmake 7 10)
           (mkResponse 200 (Raised JSONDecodeError)) JSONDecodeError
           eq_refl eq_refl eq_refl).
Defined.

(** X10.  An exception of [requests.post] that is not a
    [RequestException] is not turned into [None]: it reaches the caller of
    [query_deepseek], with the store unchanged. *)
Theorem other_exception_reaches_caller
    (requests_post : Request -> outcome Response)
    (slf : ChatMemory) (key : string) (d : option (list Message))
    (w : list Message) (prompt system_prompt model : string)
    (temperature : QArith_base.Q) (e : exn) :
  let s := mkStore slf (mkSession (Some key) d (Some w)) in
  requests_post
    (sent_request slf key w prompt system_prompt model temperature)
  = Raised e ->
  is_RequestException e = false ->
  query_deepseek requests_post prompt system_prompt model temperature s
  = (Raised e, s).
Proof.
  intros s Hpost He. unfold s. rewrite query_deepseek_sends.
  unfold try_except_RequestException, bind, lift.
  rewrite Hpost, He. reflexivity.
Qed.

Lemma other_exception_reaches_caller_witness :
  query_deepseek (fun _ => Raised TypeError)
    "hi" "sys" "deepseek-chat" (QArith_base.Qmake 7 10)
    (mkStore (mkChatMemory 8) (mkSession (Some "key") (Some []) (Some [])))
  = (Raised TypeError,
     mkStore (mkChatMemory 8) (mkSession (Some "key") (Some []) (Some []))).
Proof.
  exact (other_exception_reaches_caller (fun _ => Raised TypeError)
           (mkChatMemory 8) "key" (Some []) [] "hi" "sys" "deepseek-chat"
           (QArith_base.Qmake 7 10) TypeError eq_refl eq_refl).
Defined.

(** X11.  A turn consults the network once, with the request built from
    the store before the call: the endpoint [API_URL], the header
    [Bearer key], and as messages the system prompt, the window and the new
    user prompt.  Two networks that answer this request alike give the same
    result and the same store. *)
Theorem one_request_decides_turn
    (post1 post2 : Request -> outcome Response)
    (slf : ChatMemory) (key : string) (d : option (list Message))
    (w : list Message) (prompt system_prompt model : string)
    (temperature : QArith_base.Q) :
  let s := mkStore slf (mkSession (Some key) d (Some w)) in
  post1 (mkRequest API_URL ("Bearer " ++ key)%string "application/json"
           (mkPayload model
              ([mkMessage "system" system_prompt]
               ++ slice_from (- max_messages slf) w
               ++ [mkMessage "user" prompt])
              temperature))
  = post2 (mkRequest API_URL ("Bearer " ++ key)%string "application/json"
             (mkPayload model
                ([mkMessage "system" system_prompt]
                 ++ slice_from (- max_messages slf) w
                 ++ [mkMessage "user" prompt])
                temperature)) ->
  query_deepseek post1 prompt system_prompt model temperature s
  = query_deepseek post2 prompt system_prompt model temperature s.
Proof.
  intros s H. unfold s. rewrite !query_deepseek_sends.
  unfold try_except_RequestException, bind at 1 3, lift at 1 3.
  unfold sent_request, system_message. cbn [app] in *.
  rewrite H. reflexivity.
Qed.

Lemma one_request_decides_turn_witness :
  query_deepseek (fun _ => Raised Timeout)
    "hi" "sys" "deepseek-chat" (QArith_base.Qmake 7 10)
    (mkStore (mkChatMemory 8) (mkSession (Some "key") (Some []) (Some [])))
  = query_deepseek
      (fun r =>
         match payload_messages (request_json r) with
         | [] => Raised TypeError
         | _ => Raised Timeout
         end)
      "hi" "sys" "deepseek-chat" (QArith_base.Qmake 7 10)
      (mkStore (mkChatMemory 8) (mkSession (Some "key") (Some []) (Some []))).
Proof.
  exact (one_request_decides_turn (fun _ => Raised Timeout)
           (fun r =>
              match payload_messages (request_json r) with
              | [] => Raised TypeError
              | _ => Raised Timeout
              end)
           (mkChatMemory 8) "key" (Some []) [] "hi" "sys" "deepseek-chat"
           (QArith_base.Qmake 7 10) eq_refl).
Defined.

(** The turn leaves the store as it was unless the two [add_message] calls
    are reached. *)
Lemma query_deepseek_unchanged_cases
    (requests_post : Request -> outcome Response)
    (slf : ChatMemory) (key : string) (d : option (list Message))
    (w : list Message) (prompt system_prompt model : string)
    (temperature : QArith_base.Q) :
  let s := mkStore slf (mkSession (Some key) d (Some w)) in
  match requests_post
          (sent_request slf key w prompt system_prompt model temperature) with
  | Raised _ => True
  | Returned response =>
      status_code response <> 200
      \/ match json response with
         | Raised _ => True
         | Returned body =>
             match assistant_content body with
             | Raised _ => True
             | Returned _ => d = None
             end
         end
  end ->
  after (query_deepseek requests_post prompt system_prompt model temperature) s
  = s.
Proof.
  intros s H. unfold after, s. rewrite query_deepseek_sends.
  unfold try_except_RequestException.
  unfold bind at 1. unfold lift at 1.
  destruct (requests_post _) as [response|e].
  - unfold bind at 1. unfold raise_for_status.
    destruct ((400 <=? status_code response) && (status_code response <? 600))
      eqn:Hrange.
    + reflexivity.
    + cbn [ret].
      destruct (status_code response =? 200) eqn:Hst.
      * apply Z.eqb_eq in Hst.
        destruct H as [H|H]; [contradiction|].
        unfold bind at 1. unfold lift at 1.
        destruct (json response) as [body|e].
        -- unfold bind at 1. unfold lift at 1.
           destruct (assistant_content body) as [c|e].
           ++ subst d. reflexivity.
           ++ destruct (is_RequestException e); reflexivity.
        -- destruct (is_RequestException e); reflexivity.
      * reflexivity.
  - destruct (is_RequestException e); reflexivity.
Qed.

(** X8.  The memory is written on one path only.  If a turn leaves a store
    different from the one it started on, then the key and both lists were
    present, the response to the request had status 200, its body parsed,
    and the extraction chain returned a content. *)
Theorem memory_changes_only_on_parsed_200
    (requests_post : Request -> outcome Response)
    (prompt system_prompt model : string) (temperature : QArith_base.Q)
    (s : Store) :
  after (query_deepseek requests_post prompt system_prompt model temperature) s
  <> s ->
  exists (key : string) (d w : list Message) (response : Response)
         (body : ResponseData) (c : string),
    DEESEEK_API_KEY (session s) = Some key
    /\ messages (session s) = Some d
    /\ full_history (session s) = Some w
    /\ requests_post
         (sent_request (self s) key w prompt system_prompt model temperature)
       = Returned response
    /\ status_code response = 200
    /\ json response = Returned body
    /\ assistant_content body = Returned c.
Proof.
  intros Hneq.
  destruct s as [slf [[key|] d [w|]]];
    try (exfalso; apply Hneq; reflexivity).
  cbn [session self DEESEEK_API_KEY messages full_history].
  pose proof (query_deepseek_unchanged_cases requests_post slf key d w
                prompt system_prompt model temperature) as Hsame.
  cbn zeta in Hsame.
  destruct (requests_post
              (sent_request slf key w prompt system_prompt model temperature))
    as [response|e] eqn:Hpost; [|exfalso; apply Hneq, Hsame; exact I].
  destruct (Z.eq_dec (status_code response) 200) as [Hst|Hst];
    [|exfalso; apply Hneq, Hsame; left; exact Hst].
  destruct (json response) as [body|e] eqn:Hjson;
    [|exfalso; apply Hneq, Hsame; right; exact I].
  destruct (assistant_content body) as [c|e] eqn:Hc;
    [|exfalso; apply Hneq, Hsame; right; exact I].
  destruct d as [d|];
    [|exfalso; apply Hneq, Hsame; right; reflexivity].
  exists key, d, w, response, body, c. repeat split; assumption.
Qed.

Lemma memory_changes_only_on_parsed_200_witness :
  let body := mkResponseData None in
  let post := fun _ : Request => Returned (mkResponse 200 (Returned body)) in
  let s := mkStore (mkChatMemory 8) (mkSession (Some "key") (Some []) (Some [])) in
  exists (key : string) (d w : list Message) (response : Response)
         (body : ResponseData) (c : string),
    DEESEEK_API_KEY (session s) = Some key
    /\ messages (session s) = Some d
    /\ full_history (session s) = Some w
    /\ post (sent_request (self s) key w "hi" "sys" "deepseek-chat"
               (QArith_base.Qmake 7 10))
       = Returned response
    /\ status_code response = 200
    /\ json response = Returned body
    /\ assistant_content body = Returned c.
Proof.
  cbn zeta.
  apply (memory_changes_only_on_parsed_200
           (fun _ : Request =>
              Returned (mkResponse 200 (Returned (mkResponseData None))))
           "hi" "sys" "deepseek-chat" (QArith_base.Qmake 7 10)
           (mkStore (mkChatMemory 8)
              (mkSession (Some "key") (Some []) (Some [])))).
  cbv. discriminate.
Defined.

(** X12.  The next context carries the last exchange.  After a successful
    turn on a memory whose bound is at least 2, [get_context] returns, for
    every system prompt, the system message, then earlier window entries,
    then the user prompt and the reply of that turn as its last two
    messages. *)
Theorem next_context_ends_with_exchange
    (requests_post : Request -> outcome Response)
    (slf : ChatMemory) (key : string) (d w : list Message)
    (prompt system_prompt model : string) (temperature : QArith_base.Q)
    (response : Response) (body : ResponseData) (c : string) :
  let s := mkStore slf (mkSession (Some key) (Some d) (Some w)) in
  let s' :=
    after (query_deepseek requests_post prompt system_prompt model
             temperature) s in
  2 <= max_messages slf ->
  requests_post
    (sent_request slf key w prompt system_prompt model temperature)
  = Returned response ->
  status_code response = 200 ->
  json response = Returned body ->
  assistant_content body = Returned c ->
  exists earlier : list Message,
    (exists dropped, w = dropped ++ earlier)
    /\ forall p : string,
         fst (get_context p s')
         = Returned
             ([mkMessage "system" p] ++ earlier
              ++ [mkMessage "user" prompt; mkMessage "assistant" c]).
Proof.
  intros s s' Hn Hpost Hstatus Hjson Hcontent.
  assert (Hn0 : 0 <= max_messages slf) by lia.
  unfold s', after, s.
  rewrite (query_deepseek_on_content _ _ _ _ _ _ _ _ _ _ _ c
             Hpost Hstatus Hjson Hcontent).
  unfold try_except_RequestException, bind.
  rewrite add_message_nonneg by exact Hn0.
  rewrite add_message_nonneg by exact Hn0.
  unfold ret. cbn [snd]. rewrite last_n_app_last, <- !app_assoc.
  cbn [app].
  set (k := (length w + 2 - Z.to_nat (max_messages slf))%nat).
  assert (Hlast :
    last_n (Z.to_nat (max_messages slf))
      (w ++ [mkMessage "user" prompt; mkMessage "assistant" c])
    = skipn k w ++ [mkMessage "user" prompt; mkMessage "assistant" c]).
  { unfold last_n. rewrite length_app. cbn [length]. fold k.
    rewrite skipn_app.
    replace (k - length w)%nat with 0%nat by (unfold k; lia).
    reflexivity. }
  exists (skipn k w). split.
  - exists (firstn k w). symmetry. apply firstn_skipn.
  - intros p. rewrite get_context_positive_bound by (cbn; lia).
    now rewrite last_n_idempotent, Hlast.
Qed.

Lemma next_context_ends_with_exchange_witness :
  let body :=
    mkResponseData (Some [mkChoice (Some (mkReplyMessage (Some "hello")))]) in
  let post := fun _ : Request => Returned (mkResponse 200 (Returned body)) in
  let old := [mkMessage "user" "a"; mkMessage "assistant" "b"] in
  let s := mkStore (mkChatMemory 3) (mkSession (Some "key") (Some old) (Some old)) in
  2 <= 3
  /\ exists earlier : list Message,
       (exists dropped, old = dropped ++ earlier)
       /\ forall p : string,
            fst (get_context p
                   (after (query_deepseek post "hi" "sys" "deepseek-chat"
                             (QArith_base.Qmake 7 10)) s))
            = Returned
                ([mkMessage "system" p] ++ earlier
                 ++ [mkMessage "user" "hi"; mkMessage "assistant" "hello"]).
Proof.
  cbn zeta. split; [lia|].
  apply (next_context_ends_with_exchange
           (fun _ : Request =>
              Returned
                (mkResponse 200
                   (Returned
                      (mkResponseData
                         (Some [mkChoice
                                  (Some (mkReplyMessage (Some "hello")))])))))
           (mkChatMemory 3) "key"
           [mkMessage "user" "a"; mkMessage "assistant" "b"]
           [mkMessage "user" "a"; mkMessage "assistant" "b"]
           "hi" "sys" "deepseek-chat" (QArith_base.Qmake 7 10)
           (mkResponse 200
              (Returned
                 (mkResponseData
                    (Some [mkChoice (Some (mkReplyMessage (Some "hello")))]))))
           (mkResponseData
              (Some [mkChoice (Some (mkReplyMessage (Some "hello")))]))
           "hello");
    [cbn; lia | reflexivity | reflexivity | reflexivity | reflexivity].
Defined.

(** ** The file extractor and the prompt *)

Lemma substring_whole (k : nat) :
  forall s : string, (String.length s <= k)%nat -> substring 0 k s = s.
Proof.
  induction k as [|k IH]; intros [|a s] H; cbn [String.length] in H;
    try reflexivity; try lia.
  cbn [substring]. rewrite IH by lia. reflexivity.
Qed.

Lemma pdf_text_acc (pages : list (option string)) :
  forall acc : string,
    Forall (fun page => page = None \/ page = Some "") pages ->
    fold_left
      (fun text page =>
         (text ++ match page with Some t => t | None => "" end)%string)
      pages acc = acc.
Proof.
  induction pages as [|page pages IH]; intros acc H; cbn [fold_left].
  - reflexivity.
  - inversion H as [|? ? Hpage Hrest]; subst.
    destruct Hpage as [-> | ->]; rewrite string_app_nil_r; now apply IH.
Qed.

Lemma processed_In
    (pdf_pages : UploadedFile -> outcome (list (option string)))
    (chardet_detect : list Byte.byte -> option (option string))
    (decode : list Byte.byte -> string -> outcome string)
    (files : list UploadedFile) (s : string) :
  In s (processed pdf_pages chardet_detect decode files) ->
  exists file,
    In file files
    /\ process_file pdf_pages chardet_detect decode file = Returned s.
Proof.
  unfold processed. rewrite in_flat_map.
  intros (file & Hin & Hs). exists file. split; [exact Hin|].
  destruct (process_file pdf_pages chardet_detect decode file) as [s'|e].
  - destruct Hs as [->|[]]. reflexivity.
  - destruct Hs.
Qed.

Lemma join_cons (sep s : string) (l : list string) :
  join sep (s :: l)
  = (s ++ match l with
          | [] => ""
          | _ => sep ++ join sep l
          end)%string.
Proof.
  destruct l as [|t l]; cbn [join String.concat].
  - now rewrite string_app_nil_r.
  - reflexivity.
Qed.

Lemma file_context_join
    (pdf_pages : UploadedFile -> outcome (list (option string)))
    (chardet_detect : list Byte.byte -> option (option string))
    (decode : list Byte.byte -> string -> outcome string)
    (files : list UploadedFile) :
  file_context pdf_pages chardet_detect decode files
  = join newline (processed pdf_pages chardet_detect decode files).
Proof.
  destruct files as [|file rest]; [reflexivity|].
  unfold file_context, process_uploaded_files.
  now rewrite process_loop_processed.
Qed.

(** X13.  A file whose processing raises is left out and nothing else
    changes: the batch gives the string it gives without that file. *)
Theorem failed_file_is_skipped
    (pdf_pages : UploadedFile -> outcome (list (option string)))
    (chardet_detect : list Byte.byte -> option (option string))
    (decode : list Byte.byte -> string -> outcome string)
    (before rest : list UploadedFile) (file : UploadedFile) (e : exn) :
  process_file pdf_pages chardet_detect decode file = Raised e ->
  process_uploaded_files pdf_pages chardet_detect decode
    (before ++ file :: rest)
  = process_uploaded_files pdf_pages chardet_detect decode (before ++ rest).
Proof.
  intros He. unfold process_uploaded_files.
  rewrite !process_loop_processed, !processed_app. cbn [app].
  unfold processed at 2. cbn [flat_map]. rewrite He. reflexivity.
Qed.

Lemma failed_file_is_skipped_witness :
  let good := mkFile "a.txt" "text/plain" (Returned []) in
  let bad := mkFile "b.txt" "text/plain" (Raised TypeError) in
  let pdf_pages := fun _ : UploadedFile => @Raised (list (option string)) TypeError in
  let chardet_detect := fun _ : list Byte.byte => Some (Some "ascii") in
  let decode := fun (_ : list Byte.byte) (_ : string) => Returned "x" in
  process_uploaded_files pdf_pages chardet_detect decode ([good] ++ bad :: [good])
  = process_uploaded_files pdf_pages chardet_detect decode ([good] ++ [good]).
Proof.
  exact (failed_file_is_skipped
           (fun _ : UploadedFile => @Raised (list (option string)) TypeError)
           (fun _ : list Byte.byte => Some (Some "ascii"))
           (fun (_ : list Byte.byte) (_ : string) => Returned "x")
           [mkFile "a.txt" "text/plain" (Returned [])]
           [mkFile "a.txt" "text/plain" (Returned [])]
           (mkFile "b.txt" "text/plain" (Raised TypeError))
           TypeError eq_refl).
Defined.

(** X14.  The fallback encoding applies only when the detector's result has
    no key ["encoding"].  For a file that is not a PDF and whose bytes were
    read: when the key holds [None] the file fails with [TypeError], whatever
    the codec would do with its bytes; when the key is absent the bytes are
    decoded as ["utf-8-sig"]. *)
Theorem encoding_fallback_only_for_absent_key
    (pdf_pages : UploadedFile -> outcome (list (option string)))
    (chardet_detect : list Byte.byte -> option (option string))
    (decode : list Byte.byte -> string -> outcome string)
    (file : UploadedFile) (raw : list Byte.byte) :
  String.eqb (type file) "application/pdf" = false ->
  read file = Returned raw ->
  (chardet_detect raw = Some None ->
   process_file pdf_pages chardet_detect decode file = Raised TypeError)
  /\ (chardet_detect raw = None ->
      process_file pdf_pages chardet_detect decode file
      = match decode raw "utf-8-sig" with
        | Raised e => Raised e
        | Returned text =>
            Returned ("FILE_CONTENT:" ++ name file ++ ": "
                      ++ str_slice_to MAX_FILE_CONTENT text ++ "...")%string
        end).
Proof.
  intros Htype Hread. unfold process_file. rewrite Htype, Hread.
  split; intros ->; reflexivity.
Qed.

Lemma encoding_fallback_only_for_absent_key_witness :
  let file := mkFile "empty.txt" "text/plain" (Returned []) in
  process_file (fun _ => Raised TypeError) (fun _ => Some None)
    (fun _ _ => Returned "never used") file
  = Raised TypeError.
Proof.
  exact (proj1
    (encoding_fallback_only_for_absent_key
       (fun _ => Raised TypeError) (fun _ => Some None)
       (fun _ _ => Returned "never used")
       (mkFile "empty.txt" "text/plain" (Returned [])) []
       eq_refl eq_refl) eq_refl).
Defined.

(** X15.  The excerpt of a text file is the beginning of its decoded text,
    of length [min (len text) 1000]; a text of at most 1000 characters is
    included whole, and the three dots follow it all the same. *)
Theorem text_file_excerpt
    (pdf_pages : UploadedFile -> outcome (list (option string)))
    (chardet_detect : list Byte.byte -> option (option string))
    (decode : list Byte.byte -> string -> outcome string)
    (file : UploadedFile) (raw : list Byte.byte) (enc text : string) :
  String.eqb (type file) "application/pdf" = false ->
  read file = Returned raw ->
  chardet_detect raw = Some (Some enc) ->
  decode raw enc = Returned text ->
  exists excerpt rest : string,
    process_file pdf_pages chardet_detect decode file
    = Returned ("FILE_CONTENT:" ++ name file ++ ": " ++ excerpt ++ "...")%string
    /\ text = (excerpt ++ rest)%string
    /\ String.length excerpt = Nat.min (String.length text) 1000
    /\ ((String.length text <= 1000)%nat -> excerpt = text).
Proof.
  intros Htype Hread Hdetect Hdecode.
  destruct (substring_prefix_split (Z.to_nat MAX_FILE_CONTENT) text)
    as (rest & Hsplit & Hlen).
  exists (str_slice_to MAX_FILE_CONTENT text), rest.
  unfold process_file. rewrite Htype, Hread, Hdetect, Hdecode.
  split; [reflexivity|]. split; [exact Hsplit|]. split.
  - unfold str_slice_to. rewrite Hlen.
    change (Z.to_nat MAX_FILE_CONTENT) with 1000%nat. lia.
  - intros Hshort. unfold str_slice_to. apply substring_whole.
    change (Z.to_nat MAX_FILE_CONTENT) with 1000%nat. exact Hshort.
Qed.

Lemma text_file_excerpt_witness :
  let file := mkFile "notes.txt" "text/plain" (Returned []) in
  exists excerpt rest : string,
    process_file (fun _ => Raised TypeError) (fun _ => Some (Some "ascii"))
      (fun _ _ => Returned "hello") file
    = Returned ("FILE_CONTENT:" ++ name file ++ ": " ++ excerpt ++ "...")%string
    /\ "hello" = (excerpt ++ rest)%string
    /\ String.length excerpt = Nat.min (String.length "hello") 1000
    /\ ((String.length "hello" <= 1000)%nat -> excerpt = "hello").
Proof.
  exact (text_file_excerpt
           (fun _ => Raised TypeError) (fun _ => Some (Some "ascii"))
           (fun _ _ => Returned "hello")
           (mkFile "notes.txt" "text/plain" (Returned [])) [] "ascii" "hello"
           eq_refl eq_refl eq_refl eq_refl).
Defined.

(** X16.  A PDF that opens but has no text on any page (each page gives
    [None] or the empty string) is not an error: it is listed with an empty
    excerpt, as [PDF_CONTENT:name: ...]. *)
Theorem textless_pdf_still_listed
    (pdf_pages : UploadedFile -> outcome (list (option string)))
    (chardet_detect : list Byte.byte -> option (option string))
    (decode : list Byte.byte -> string -> outcome string)
    (file : UploadedFile) (pages : list (option string)) :
  String.eqb (type file) "application/pdf" = true ->
  pdf_pages file = Returned pages ->
  Forall (fun page => page = None \/ page = Some "") pages ->
  process_file pdf_pages chardet_detect decode file
  = Returned ("PDF_CONTENT:" ++ name file ++ ": " ++ "...")%string.
Proof.
  intros Htype Hpages Hempty.
  unfold process_file. rewrite Htype, Hpages.
  unfold pdf_text. rewrite (pdf_text_acc pages "" Hempty). reflexivity.
Qed.

Lemma textless_pdf_still_listed_witness :
  let file := mkFile "scan.pdf" "application/pdf" (Raised TypeError) in
  process_file (fun _ => Returned [None; Some ""; None])
    (fun _ => None) (fun _ _ => Raised LookupError) file
  = Returned "PDF_CONTENT:scan.pdf: ...".
Proof.
  apply (textless_pdf_still_listed
           (fun _ => Returned [None; Some ""; None])
           (fun _ => None) (fun _ _ => Raised LookupError)
           (mkFile "scan.pdf" "application/pdf" (Raised TypeError))
           [None; Some ""; None] eq_refl eq_refl).
  constructor; [left; reflexivity|].
  constructor; [right; reflexivity|].
  constructor; [left; reflexivity|].
  constructor.
Defined.

(** X17.  The prompt of a turn.  When no file was uploaded or every file
    failed, the prompt is the user's input and nothing else; otherwise it is
    the input, a newline, and the strings of the files processed
    successfully joined by newlines. *)
Theorem prompt_appends_processed_files
    (pdf_pages : UploadedFile -> outcome (list (option string)))
    (chardet_detect : list Byte.byte -> option (option string))
    (decode : list Byte.byte -> string -> outcome string)
    (user_input : string) (files : list UploadedFile) :
  full_prompt user_input (file_context pdf_pages chardet_detect decode files)
  = match processed pdf_pages chardet_detect decode files with
    | [] => user_input
    | parts => (user_input ++ newline ++ join newline parts)%string
    end.
Proof.
  rewrite file_context_join.
  destruct (processed pdf_pages chardet_detect decode files) as [|s l] eqn:E.
  - reflexivity.
  - assert (Hin : In s (processed pdf_pages chardet_detect decode files))
      by (rewrite E; left; reflexivity).
    destruct (processed_In _ _ _ _ _ Hin) as (file & _ & Hs).
    destruct (process_file_returned _ _ _ _ _ Hs) as (tag & text & Htag & ->).
    rewrite join_cons.
    destruct Htag as [-> | ->]; reflexivity.
Qed.

(** ** The history shown on the page *)

Lemma prefix_app (sub rest : string) :
  String.prefix sub (sub ++ rest) = true.
Proof.
  induction sub as [|a sub IH]; cbn [String.append].
  - destruct rest; reflexivity.
  - cbn [String.prefix].
    destruct (ascii_dec a a) as [_|Hne]; [exact IH | now elim Hne].
Qed.

Lemma contains_prefix (sub s : string) :
  String.prefix sub s = true -> contains sub s = true.
Proof. intros H. destruct s; cbn [contains]; rewrite H; reflexivity. Qed.

Lemma contains_app_r (sub a s : string) :
  contains sub s = true -> contains sub (a ++ s) = true.
Proof.
  intros H. induction a as [|x a IH]; cbn [String.append contains].
  - exact H.
  - rewrite IH. now destruct (String.prefix sub (String x (a ++ s))).
Qed.

Lemma contains_middle (sub a b : string) :
  contains sub (a ++ sub ++ b) = true.
Proof. apply contains_app_r, contains_prefix, prefix_app. Qed.

(** A string without the character [c], character by character. *)
Lemma contains_char_cons (c x : ascii) (s : string) :
  contains (String c "") (String x s) = false ->
  x <> c /\ contains (String c "") s = false.
Proof.
  cbn [contains String.prefix].
  destruct (ascii_dec c x) as [->|Hne].
  - destruct s; discriminate.
  - intros H. split; [congruence | exact H].
Qed.

Lemma contains_char_app (c : ascii) (a b : string) :
  contains (String c "") a = false ->
  contains (String c "") b = false ->
  contains (String c "") (a ++ b) = false.
Proof.
  intros Ha Hb. induction a as [|x a IH]; cbn [String.append].
  - exact Hb.
  - destruct (contains_char_cons c x a Ha) as [Hne Ha'].
    cbn [contains String.prefix].
    destruct (ascii_dec c x) as [->|_]; [now elim Hne|].
    now apply IH.
Qed.

Lemma split_zero (sep : ascii) (s : string) : split sep 0 s = [s].
Proof. destruct s; reflexivity. Qed.

(** The first part of a split is the text before the first separator. *)
Lemma split_first (sep : ascii) (m : nat) (a rest : string) :
  contains (String sep "") a = false ->
  split sep (S m) (a ++ String sep rest) = a :: split sep m rest.
Proof.
  intros Ha. induction a as [|x a IH]; cbn [String.append split].
  - now rewrite Ascii.eqb_refl.
  - destruct (contains_char_cons sep x a Ha) as [Hne Ha'].
    apply Ascii.eqb_neq in Hne. rewrite Hne, (IH Ha'). reflexivity.
Qed.

(** X18.  How a turn with an uploaded file shows in the history.  Let the
    first uploaded file be processed successfully, and let neither the
    user's input nor the file name hold a colon.  The message stored for the
    turn is then rendered as a line made of the input, a newline and the
    provenance tag, and an expander holding what follows [TAG:name:] in the
    file context: the file name itself is not shown. *)
Theorem history_shows_tag_and_hides_file_name
    (pdf_pages : UploadedFile -> outcome (list (option string)))
    (chardet_detect : list Byte.byte -> option (option string))
    (decode : list Byte.byte -> string -> outcome string)
    (user_input : string) (file : UploadedFile) (rest : list UploadedFile)
    (s : string) :
  let context :=
    file_context pdf_pages chardet_detect decode (file :: rest) in
  process_file pdf_pages chardet_detect decode file = Returned s ->
  contains ":" user_input = false ->
  contains ":" (name file) = false ->
  exists tag shown : string,
    (tag = "PDF_CONTENT" \/ tag = "FILE_CONTENT")
    /\ context = (tag ++ ":" ++ name file ++ ":" ++ shown)%string
    /\ render_message (mkMessage "user" (full_prompt user_input context))
       = [st_write UserLabel (user_input ++ newline ++ tag)%string;
          st_expander_text shown].
Proof.
  intros context Hs Hinput Hname.
  destruct (process_file_returned _ _ _ _ _ Hs) as (tag & text & Htag & Es).
  set (excerpt := str_slice_to MAX_FILE_CONTENT text) in Es.
  set (tail :=
         match processed pdf_pages chardet_detect decode rest with
         | [] => ""
         | _ => (newline
                 ++ join newline
                      (processed pdf_pages chardet_detect decode rest))%string
         end).
  set (shown := (" " ++ excerpt ++ "..." ++ tail)%string).
  assert (Hcontext :
    context = (tag ++ ":" ++ name file ++ ":" ++ shown)%string).
  { unfold context. rewrite file_context_join.
    unfold processed. cbn [flat_map]. rewrite Hs. cbn [app].
    fold (processed pdf_pages chardet_detect decode rest).
    rewrite join_cons. fold tail. rewrite Es. unfold shown.
    rewrite !string_app_assoc. reflexivity. }
  exists tag, shown. split; [exact Htag|]. split; [exact Hcontext|].
  assert (Hprompt :
    full_prompt user_input context
    = ((user_input ++ newline ++ tag)
       ++ String colon (name file ++ String colon shown))%string).
  { rewrite Hcontext. rewrite !string_app_assoc.
    destruct Htag as [-> | ->]; reflexivity. }
  assert (Hclean : contains ":" (user_input ++ newline ++ tag) = false).
  { apply contains_char_app; [exact Hinput|].
    destruct Htag as [-> | ->]; reflexivity. }
  assert (Htagged :
    contains "FILE_CONTENT" (full_prompt user_input context)
    || contains "PDF_CONTENT" (full_prompt user_input context) = true).
  { assert (Hshape :
      full_prompt user_input context
      = ((user_input ++ newline) ++ tag
         ++ String colon (name file ++ String colon shown))%string).
    { rewrite Hprompt, !string_app_assoc. reflexivity. }
    rewrite Hshape.
    destruct Htag as [-> | ->].
    - rewrite (contains_middle "PDF_CONTENT"). apply orb_true_r.
    - rewrite (contains_middle "FILE_CONTENT"). reflexivity. }
  unfold render_message.
  cbn [role content String.eqb Ascii.eqb Bool.eqb andb].
  rewrite Htagged, Hprompt.
  rewrite (split_first colon 1 _ _ Hclean).
  rewrite (split_first colon 0 _ _ Hname).
  rewrite split_zero. reflexivity.
Qed.

Lemma history_shows_tag_and_hides_file_name_witness :
  let file := mkFile "notes.txt" "text/plain" (Returned []) in
  let pdf_pages := fun _ : UploadedFile => @Raised (list (option string)) TypeError in
  let chardet_detect := fun _ : list Byte.byte => Some (Some "ascii") in
  let decode := fun (_ : list Byte.byte) (_ : string) => Returned "body" in
  exists tag shown : string,
    (tag = "PDF_CONTENT" \/ tag = "FILE_CONTENT")
    /\ file_context pdf_pages chardet_detect decode (file :: [])
       = (tag ++ ":" ++ name file ++ ":" ++ shown)%string
    /\ render_message
         (mkMessage "user"
            (full_prompt "summarise"
               (file_context pdf_pages chardet_detect decode (file :: []))))
       = [st_write UserLabel ("summarise" ++ newline ++ tag)%string;
          st_expander_text shown].
Proof.
  exact (history_shows_tag_and_hides_file_name
           (fun _ : UploadedFile => @Raised (list (option string)) TypeError)
           (fun _ : list Byte.byte => Some (Some "ascii"))
           (fun (_ : list Byte.byte) (_ : string) => Returned "body")
           "summarise" (mkFile "notes.txt" "text/plain" (Returned [])) []
           "FILE_CONTENT:notes.txt: body..." eq_refl eq_refl eq_refl).
Defined.

Lemma split_without_separator (sep : ascii) (m : nat) (s : string) :
  contains (String sep "") s = false -> split sep m s = [s].
Proof.
  intros Hs. induction s as [|x s IH]; [reflexivity|].
  destruct (contains_char_cons sep x s Hs) as [Hne Hs'].
  destruct m as [|m]; [reflexivity|].
  cbn [split]. apply Ascii.eqb_neq in Hne. rewrite Hne, (IH Hs').
  reflexivity.
Qed.

(** X19.  What a message holding a provenance tag shows, by its colons.
    Without a colon the whole content is written on the line and again in
    the expander; with one colon the line is the text before it and the
    expander the text after it; with two or more the line is the text before
    the first colon, the expander everything after the second, and the text
    between the two is not shown.  The label is the user's for the role
    [user] and the assistant's for every other role. *)
Theorem tagged_message_rendering (r text : string) :
  let who := if String.eqb r "user" then UserLabel else AssistantLabel in
  contains "FILE_CONTENT" text || contains "PDF_CONTENT" text = true ->
  (contains ":" text = false ->
   render_message (mkMessage r text)
   = [st_write who text; st_expander_text text])
  /\ (forall a b : string,
        text = (a ++ ":" ++ b)%string ->
        contains ":" a = false -> contains ":" b = false ->
        render_message (mkMessage r text)
        = [st_write who a; st_expander_text b])
  /\ (forall a b c : string,
        text = (a ++ ":" ++ b ++ ":" ++ c)%string ->
        contains ":" a = false -> contains ":" b = false ->
        render_message (mkMessage r text)
        = [st_write who a; st_expander_text c]).
Proof.
  intros who Htagged. unfold render_message. cbn [role content].
  fold who. rewrite Htagged.
  split; [|split].
  - intros Hnone. rewrite (split_without_separator colon 2 text Hnone).
    reflexivity.
  - intros a b -> Ha Hb.
    change (a ++ ":" ++ b)%string with (a ++ String colon b)%string.
    rewrite (split_first colon 1 a b Ha).
    rewrite (split_without_separator colon 1 b Hb). reflexivity.
  - intros a b c -> Ha Hb.
    change (a ++ ":" ++ b ++ ":" ++ c)%string
      with (a ++ String colon (b ++ String colon c))%string.
    rewrite (split_first colon 1 a _ Ha).
    rewrite (split_first colon 0 b c Hb).
    rewrite split_zero. reflexivity.
Qed.

Lemma tagged_message_rendering_witness :
  render_message (mkMessage "assistant" "See PDF_CONTENT: page 1: done")
  = [st_write AssistantLabel "See PDF_CONTENT"; st_expander_text " done"].
Proof.
  exact (proj2 (proj2
    (tagged_message_rendering "assistant" "See PDF_CONTENT: page 1: done"
       eq_refl))
    "See PDF_CONTENT" " page 1" " done" eq_refl eq_refl eq_refl).
Defined.

(** X5.  With a bound that is not negative no operation of the memory
    raises: on every store reached from the empty memory, each of
    [initialize_session], [add_message] and [clear_memory] returns. *)
Theorem memory_operations_return (n : Z) (key : option string)
    (ops : list operation) (o : operation) :
  0 <= n ->
  fst (perform o (after_operations ops (empty_memory n key))) = Returned tt.
Proof.
  intros Hn. rewrite empty_memory_store.
  destruct (after_operations_keeps_lists (mkChatMemory n) key ops [] [])
    as (d & w & E).
  rewrite E. destruct o as [|r c|]; cbn [perform].
  - reflexivity.
  - rewrite add_message_nonneg by exact Hn. reflexivity.
  - reflexivity.
Qed.

Lemma memory_operations_return_witness :
  0 <= 0
  /\ fst (perform (AddMessage "user" "b")
            (after_operations [AddMessage "user" "a"; Clear]
               (empty_memory 0 None)))
     = Returned tt.
Proof.
  split; [lia|].
  apply (memory_operations_return 0 None [AddMessage "user" "a"; Clear]
           (AddMessage "user" "b")).
  lia.
Defined.
